(** * jenkins-history: the extraction and formatting core of the CLI

    A shallow embedding of [src/jenkins-history.py].  The program works on
    the values the JSON decoder hands back, without checking their shape;
    the embedding keeps that: every function takes decoded JSON values and
    either returns or raises the exception Python raises there. *)

From Stdlib Require Import String Ascii List ZArith Bool Lia DecimalString.
From Stdlib Require DecimalZ DecimalPos.
Import ListNotations.
Local Open Scope list_scope.
Local Open Scope string_scope.

(** ** Decoded JSON values

    What [response.json()] returns.  A number is a Python [int]; numbers
    with a fraction or an exponent (Python floats) are not part of this
    model.  A string is a sequence of characters, one [ascii] each.  An
    object is the decoded [dict]: its items in insertion order, keys
    pairwise distinct. *)

#[warnings="-register-all"]
Inductive json : Type :=
| JNull
| JBool (b : bool)
| JInt (z : Z)
| JStr (s : string)
| JArr (items : list json)
| JObj (members : list (string * json)).

(** ** Exceptions and the two levels of effect *)

(** The subclasses of [Exception] that the modelled code can raise. The
    message of an exception is not modelled. *)
Inductive exn : Type :=
| AttributeError
| TypeError
| ValueError
| OverflowError
| OSError
| RecursionError.

(** A computation without side effects: it returns or raises. *)
Inductive py (A : Type) : Type :=
| Ok (a : A)
| Raise (e : exn).
Arguments Ok {A} a.
Arguments Raise {A} e.

Definition py_bind {A B : Type} (m : py A) (k : A -> py B) : py B :=
  match m with
  | Ok a => k a
  | Raise e => Raise e
  end.

Declare Scope py_scope.
Delimit Scope py_scope with py.
Notation "x <- m ;; k" := (py_bind m (fun x => k))
  (at level 100, m at next level, right associativity) : py_scope.
Local Open Scope py_scope.

(** ** The pieces of the Python runtime the program calls *)

Module Str.

Definition is_empty (s : string) : bool :=
  match s with
  | EmptyString => true
  | String _ _ => false
  end.

(** [needle in s] on strings: [needle] occurs in [s]. *)
Fixpoint contains (needle s : string) : bool :=
  prefix needle s
  || match s with
     | EmptyString => false
     | String _ s' => contains needle s'
     end.

(** [s.replace(old, new)] for a non-empty [old]: the occurrences of [old]
    are replaced from left to right, without overlap.  [skip] counts the
    characters of a replaced occurrence still to be passed over. *)
Fixpoint replace_from (old new : string) (skip : nat) (s : string) : string :=
  match s with
  | EmptyString => EmptyString
  | String c s' =>
      match skip with
      | S k => replace_from old new k s'
      | O =>
          if prefix old s
          then new ++ replace_from old new (String.length old - 1) s'
          else String c (replace_from old new 0 s')
      end
  end.

Definition replace (old new s : string) : string := replace_from old new 0 s.

Definition is_slash (c : ascii) : bool := Ascii.eqb c "/"%char.

Fixpoint lstrip_slash (s : string) : string :=
  match s with
  | EmptyString => EmptyString
  | String c s' => if is_slash c then lstrip_slash s' else s
  end.

Fixpoint rstrip_slash (s : string) : string :=
  match s with
  | EmptyString => EmptyString
  | String c s' =>
      let r := rstrip_slash s' in
      if is_slash c && is_empty r then EmptyString else String c r
  end.

(** [s.strip('/')] *)
Definition strip_slash (s : string) : string := rstrip_slash (lstrip_slash s).

Fixpoint spaces (n : nat) : string :=
  match n with
  | O => EmptyString
  | S k => String " "%char (spaces k)
  end.

(** [s.ljust(width)], which is what the format spec [<width] does to a
    string. *)
Definition ljust (s : string) (width : nat) : string :=
  s ++ spaces (width - String.length s).

(** [sep.join(parts)] *)
Fixpoint join (sep : string) (parts : list string) : string :=
  match parts with
  | [] => EmptyString
  | [p] => p
  | p :: rest => p ++ sep ++ join sep rest
  end.

(** [s[:n]] *)
Definition take (n : nat) (s : string) : string := substring 0 n s.

(** The characters of a string, each as a string of length one: what
    iterating over a [str] yields. *)
Fixpoint chars (s : string) : list string :=
  match s with
  | EmptyString => []
  | String c s' => String c EmptyString :: chars s'
  end.

End Str.

(** The decimal digits of an [int]: [str(z)]. *)
Definition str_of_Z (z : Z) : string := NilZero.string_of_int (Z.to_int z).

Module Repr.

Definition hex_digit (n : nat) : ascii :=
  match String.get n "0123456789abcdef" with
  | Some c => c
  | None => "0"%char
  end.

Definition hex2 (c : ascii) : string :=
  let n := nat_of_ascii c in
  String (hex_digit (n / 16)%nat)
         (String (hex_digit (n mod 16)%nat) EmptyString).

(** [str.isprintable] on the characters up to U+00FF: the controls, the
    no-break space and the soft hyphen are not printable. *)
Definition printable (c : ascii) : bool :=
  let n := nat_of_ascii c in
  ((32 <=? n)%nat && (n <? 127)%nat)
  || ((161 <=? n)%nat && negb (n =? 173)%nat).

Definition has_char (c : ascii) (s : string) : bool :=
  Str.contains (String c EmptyString) s.

(** The quote around the text: single, or double (character 34) for a
    string with single quotes and no double quote. *)
Definition quote_of (s : string) : ascii :=
  if has_char "'"%char s && negb (has_char "034"%char s)
  then "034"%char else "'"%char.

Definition escape (quote c : ascii) : string :=
  if Ascii.eqb c quote || Ascii.eqb c "\"%char
  then String "\"%char (String c EmptyString)
  else if Ascii.eqb c "009"%char then "\t"
  else if Ascii.eqb c "010"%char then "\n"
  else if Ascii.eqb c "013"%char then "\r"
  else if printable c then String c EmptyString
  else "\x" ++ hex2 c.

Fixpoint escape_all (quote : ascii) (s : string) : string :=
  match s with
  | EmptyString => EmptyString
  | String c s' => escape quote c ++ escape_all quote s'
  end.

(** [repr(s)] of a string *)
Definition repr_str (s : string) : string :=
  let q := quote_of s in
  String q (escape_all q s ++ String q EmptyString).

End Repr.

(** [repr(v)] *)
Fixpoint py_repr (v : json) : string :=
  match v with
  | JNull => "None"
  | JBool true => "True"
  | JBool false => "False"
  | JInt z => str_of_Z z
  | JStr s => Repr.repr_str s
  | JArr items => "[" ++ Str.join ", " (map py_repr items) ++ "]"
  | JObj members =>
      "{" ++ Str.join ", "
               (map (fun '(k, x) => Repr.repr_str k ++ ": " ++ py_repr x) members)
          ++ "}"
  end.

(** [str(v)] *)
Definition py_str (v : json) : string :=
  match v with
  | JStr s => s
  | _ => py_repr v
  end.

(** Truth value of [v], as [if v:] and [not v] take it. *)
Definition py_truth (v : json) : bool :=
  match v with
  | JNull => false
  | JBool b => b
  | JInt z => negb (z =? 0)%Z
  | JStr s => negb (Str.is_empty s)
  | JArr items => match items with [] => false | _ :: _ => true end
  | JObj members => match members with [] => false | _ :: _ => true end
  end.

(** [v == s] for a string literal [s] *)
Definition eq_str (v : json) (s : string) : bool :=
  match v with
  | JStr t => String.eqb t s
  | _ => false
  end.

Fixpoint lookup (key : string) (members : list (string * json)) : option json :=
  match members with
  | [] => None
  | (k, x) :: rest => if String.eqb k key then Some x else lookup key rest
  end.

(** [v.get(key, default)]: only a [dict] has the method. *)
Definition py_get (v : json) (key : string) (default : json) : py json :=
  match v with
  | JObj members =>
      Ok match lookup key members with
         | Some x => x
         | None => default
         end
  | _ => Raise AttributeError
  end.

(** [s in v] for a string literal [s]: a key of a [dict], an element of a
    [list], a substring of a [str]; the other values are no containers. *)
Definition py_in (s : string) (v : json) : py bool :=
  match v with
  | JObj members => Ok match lookup s members with Some _ => true | None => false end
  | JArr items => Ok (existsb (fun x => eq_str x s) items)
  | JStr t => Ok (Str.contains s t)
  | JNull | JBool _ | JInt _ => Raise TypeError
  end.

(** What [for x in v] goes through: the elements of a [list], the keys of
    a [dict], the characters of a [str]. *)
Definition py_iter (v : json) : py (list json) :=
  match v with
  | JArr items => Ok items
  | JObj members => Ok (map (fun kv => JStr (fst kv)) members)
  | JStr s => Ok (map JStr (Str.chars s))
  | JNull | JBool _ | JInt _ => Raise TypeError
  end.

(** [v.replace(old, new)]: only a [str] has the method. *)
Definition py_replace (v : json) (old new : string) : py json :=
  match v with
  | JStr s => Ok (JStr (Str.replace old new s))
  | _ => Raise AttributeError
  end.

(** [format(v, '<width')], the conversion behind [{v:<width}] in an
    f-string: a string is padded on the right, an [int] is printed in
    decimal and padded ([bool] is an [int] there), and the values whose
    type has no format of its own ([None], [list], [dict]) raise. *)
Definition py_format_ljust (v : json) (width : nat) : py string :=
  match v with
  | JStr s => Ok (Str.ljust s width)
  | JInt z => Ok (Str.ljust (str_of_Z z) width)
  | JBool b => Ok (Str.ljust (if b then "1" else "0") width)
  | JNull | JArr _ | JObj _ => Raise TypeError
  end.

(** A [for] loop whose body may [return]: [Some r] when the body returned
    [r], [None] when the loop ran to its end. *)
Fixpoint for_return {A R : Type} (body : A -> py (option R)) (xs : list A)
  : py (option R) :=
  match xs with
  | [] => Ok None
  | x :: rest =>
      r <- body x ;;
      match r with
      | Some v => Ok (Some v)
      | None => for_return body rest
      end
  end.

(** A [for] loop whose body updates a local variable. *)
Fixpoint for_each {A S : Type} (body : S -> A -> py S) (xs : list A) (s : S)
  : py S :=
  match xs with
  | [] => Ok s
  | x :: rest => s' <- body s x ;; for_each body rest s'
  end.

(** ** Status of a job: [_color_to_status] *)

Definition color_map : list (string * string) :=
  [ ("blue", "SUCCESS");
    ("red", "FAILURE");
    ("yellow", "UNSTABLE");
    ("grey", "NOT_BUILT");
    ("disabled", "DISABLED");
    ("aborted", "ABORTED");
    ("blue_anime", "BUILDING");
    ("red_anime", "BUILDING");
    ("yellow_anime", "BUILDING") ].

Fixpoint assoc (key : string) (table : list (string * string)) : option string :=
  match table with
  | [] => None
  | (k, x) :: rest => if String.eqb k key then Some x else assoc key rest
  end.

(** [color_map.get(color, 'UNKNOWN')]: the keys of the table are strings,
    so no other hashable value is found in it; a [list] or a [dict] cannot
    be hashed. *)
Definition _color_to_status (color : json) : py string :=
  match color with
  | JStr c =>
      Ok match assoc c color_map with
         | Some status => status
         | None => "UNKNOWN"
         end
  | JNull | JBool _ | JInt _ => Ok "UNKNOWN"
  | JArr _ | JObj _ => Raise TypeError
  end.

(** ** Who triggered a build: [_extract_trigger_info] *)

Definition CAUSE_ACTION : string := "hudson.model.CauseAction".

(** The body of the loop over the causes (lines 168-176) for one cause:
    [Some v] when it returns [v], [None] when the loop goes on. *)
Definition trigger_of_cause (cause : json) : py (option json) :=
  has_user <- py_in "userId" cause ;;
  if has_user : bool then
    v <- py_get cause "userId" (JStr "Unknown User") ;;
    Ok (Some v)
  else
    has_desc <- py_in "shortDescription" cause ;;
    if has_desc : bool then
      desc <- py_get cause "shortDescription" (JStr "") ;;
      by_user <- py_in "Started by user" desc ;;
      if by_user : bool then
        r <- py_replace desc "Started by user " "" ;;
        Ok (Some r)
      else
        started <- py_in "Started by" desc ;;
        if started : bool then
          r <- py_replace desc "Started by " "" ;;
          Ok (Some r)
        else Ok (Some (JStr "SCM/Timer"))
    else Ok None.

(** The body of the loop over the actions (lines 165-176). *)
Definition trigger_of_action (action : json) : py (option json) :=
  cls <- py_get action "_class" JNull ;;
  if eq_str cls CAUSE_ACTION then
    causes <- py_get action "causes" (JArr []) ;;
    items <- py_iter causes ;;
    for_return trigger_of_cause items
  else Ok None.

Definition _extract_trigger_info (actions : json) : py json :=
  items <- py_iter actions ;;
  r <- for_return trigger_of_action items ;;
  Ok match r with
     | Some v => v
     | None => JStr "Unknown"
     end.

(** ** The parameters of a build: [_extract_parameters] *)

Definition PARAMETERS_ACTION : string := "hudson.model.ParametersAction".

(** The [parameters] dict of the program: its items in insertion order.  A
    key is whatever [name] a parameter carries; the values are strings. *)
Definition pydict : Type := list (json * string).

Definition hashable (v : json) : bool :=
  match v with
  | JArr _ | JObj _ => false
  | JNull | JBool _ | JInt _ | JStr _ => true
  end.

Definition as_number (v : json) : option Z :=
  match v with
  | JBool b => Some (if b then 1 else 0)%Z
  | JInt z => Some z
  | _ => None
  end.

(** [a == b] on hashable values: strings by their characters, [bool] and
    [int] by their number. *)
Definition key_eqb (a b : json) : bool :=
  match a, b with
  | JStr s, JStr t => String.eqb s t
  | JNull, JNull => true
  | _, _ =>
      match as_number a, as_number b with
      | Some x, Some y => (x =? y)%Z
      | _, _ => false
      end
  end.

(** A key that is present keeps its place and its key object and takes the
    new value; a new key goes to the end. *)
Fixpoint dict_set (d : pydict) (key : json) (value : string) : pydict :=
  match d with
  | [] => [(key, value)]
  | (k, x) :: rest =>
      if key_eqb k key then (k, value) :: rest
      else (k, x) :: dict_set rest key value
  end.

Fixpoint dict_get (d : pydict) (key : json) : option string :=
  match d with
  | [] => None
  | (k, x) :: rest => if key_eqb k key then Some x else dict_get rest key
  end.

(** [d[key] = value] *)
Definition py_setitem (d : pydict) (key : json) (value : string) : py pydict :=
  if hashable key then Ok (dict_set d key value) else Raise TypeError.

(** The body of the loop over the parameters (lines 186-189). *)
Definition add_parameter (parameters : pydict) (param : json) : py pydict :=
  name <- py_get param "name" (JStr "") ;;
  value <- py_get param "value" (JStr "") ;;
  if py_truth name && py_truth value
  then py_setitem parameters name (py_str value)
  else Ok parameters.

(** The body of the loop over the actions (lines 183-189). *)
Definition add_parameters_of (parameters : pydict) (action : json) : py pydict :=
  cls <- py_get action "_class" JNull ;;
  if eq_str cls PARAMETERS_ACTION then
    params <- py_get action "parameters" (JArr []) ;;
    items <- py_iter params ;;
    for_each add_parameter items parameters
  else Ok parameters.

Definition _extract_parameters (actions : json) : py pydict :=
  items <- py_iter actions ;;
  for_each add_parameters_of items [].

(** ** Rendering the parameters: [_format_parameters] *)

Definition _format_parameters (parameters : pydict) : string :=
  match parameters with
  | [] => "None"
  | _ :: _ =>
      let param_strs := map (fun '(k, v) => py_str k ++ "=" ++ v) parameters in
      let result := Str.join ", " param_strs in
      if (25 <? String.length result)%nat
      then Str.take 22 result ++ "..."
      else result
  end.

(** ** Printing, requests and exit

    What the program prints is kept line by line.  A line whose text the
    program fixes is its text; a line that embeds the message of an
    exception keeps what the program put around the message. *)

Inductive line : Type :=
| Text (s : string)
| RequestError (url : string)
    (* Error making request to {url}: {e} *)
| JsonError
    (* Error parsing JSON response: {e} *)
| BuildError (build_number : string) (e : exn)
    (* Error getting details for build #{build_number}: {e} *)
| HistoryError (job_path : string) (e : exn)
    (* Error getting build history for job {job_path}: {e} *)
| JobsError (workspace : string) (e : exn)
    (* Error listing jobs in workspace /{workspace}: {e} *)
| UnexpectedError (e : exn).
    (* Unexpected error: {e} *)

(** What the [try] block of [JenkinsClient.get] comes to, by the clause
    of [get] that takes it.
    - [RequestFailed]: a [RequestException] was raised: no connection, a
      timeout, a status that [raise_for_status] refuses and, with
      requests 2.27 or later, a body that is not JSON (the
      [JSONDecodeError] that [response.json()] raises there is a
      [RequestException]).
    - [PlainValueError]: [response.json()] raised a [ValueError] that is
      no [RequestException], which is what a body that is not JSON gives
      with requests before 2.27.
    - [Crashed e]: an exception of another class was raised (a
      [RecursionError] while decoding a deeply nested body), which no
      clause of [get] catches.
    - [Body v]: the decoded body. *)
Inductive response : Type :=
| RequestFailed
| PlainValueError
| Crashed (e : exn)
| Body (v : json).

Record world : Type := World {
  requests : nat;        (* requests sent so far *)
  printed : list line    (* lines printed so far, oldest first *)
}.

(** How a call ends: it returns, an [Exception] leaves it, or [sys.exit]
    was called ([SystemExit] is no [Exception]). *)
Inductive ending (A : Type) : Type :=
| Returns (a : A)
| Raises (e : exn)
| Exits (code : Z).
Arguments Returns {A} a.
Arguments Raises {A} e.
Arguments Exits {A} code.

Definition io (A : Type) : Type := world -> ending A * world.

Definition io_ret {A : Type} (a : A) : io A := fun w => (Returns a, w).

Definition io_bind {A B : Type} (m : io A) (k : A -> io B) : io B :=
  fun w =>
    match m w with
    | (Returns a, w') => k a w'
    | (Raises e, w') => (Raises e, w')
    | (Exits code, w') => (Exits code, w')
    end.

Declare Scope io_scope.
Delimit Scope io_scope with io.
Notation "x <- m ;; k" := (io_bind m (fun x => k))
  (at level 100, m at next level, right associativity) : io_scope.
Notation "m ;; k" := (io_bind m (fun _ => k))
  (at level 100, right associativity) : io_scope.

Definition lift {A : Type} (m : py A) : io A :=
  fun w =>
    match m with
    | Ok a => (Returns a, w)
    | Raise e => (Raises e, w)
    end.

(** [print(...)]: writing to the standard output is taken to succeed. *)
Definition print (l : line) : io unit :=
  fun w => (Returns tt, World (requests w) (printed w ++ [l])%list).

Definition sys_exit {A : Type} (code : Z) : io A :=
  fun w => (Exits code, w).

(** [try: body except Exception as e: handler(e)] *)
Definition try_except {A : Type} (body : io A) (handler : exn -> io A) : io A :=
  fun w =>
    match body w with
    | (Raises e, w') => handler e w'
    | other => other
    end.

Fixpoint for_io {A : Type} (body : A -> io unit) (xs : list A) : io unit :=
  match xs with
  | [] => io_ret tt
  | x :: rest => (body x ;; for_io body rest)%io
  end.

(** [v[:20]]: a [list] or a [str] is cut; the other values cannot be
    sliced ([TypeError]; for a [dict], [KeyError] from Python 3.12 on, an
    [Exception] all the same). *)
Definition py_slice20 (v : json) : py json :=
  match v with
  | JArr items => Ok (JArr (firstn 20 items))
  | JStr s => Ok (JStr (Str.take 20 s))
  | JNull | JBool _ | JInt _ | JObj _ => Raise TypeError
  end.

(** [len(v)] *)
Definition py_len (v : json) : py nat :=
  match v with
  | JArr items => Ok (List.length items)
  | JStr s => Ok (String.length s)
  | JObj members => Ok (List.length members)
  | JNull | JBool _ | JInt _ => Raise TypeError
  end.

Definition newline : string := String "010"%char EmptyString.

(** ['-' * n] *)
Fixpoint dashes (n : nat) : string :=
  match n with
  | O => EmptyString
  | S k => String "-"%char (dashes k)
  end.

Definition str_of_nat (n : nat) : string := str_of_Z (Z.of_nat n).

(** ** The endpoints *)

Definition jenkins_url : string := "http://localhost:8080".

(** [self.base_url] of the client *)
Definition base_url : string := Str.rstrip_slash jenkins_url.

(** Lines 54-55 *)
Definition list_jobs_endpoint (workspace : string) : string :=
  let workspace := Str.strip_slash workspace in
  "/job/" ++ workspace ++ "/api/json?tree=jobs[name,url,color]".

(** Lines 84-87 *)
Definition job_history_endpoint (job_path : string) : string :=
  let job_path := Str.strip_slash job_path in
  "/job/" ++ Str.replace "/" "/job/" job_path ++ "/api/json?tree=builds[number,url]".

(** Line 116 *)
Definition build_endpoint (job_path : string) (build_number : json) : string :=
  "/job/" ++ Str.replace "/" "/job/" job_path ++ "/" ++ py_str build_number
          ++ "/api/json".

Section Commands.

(** The server: what the [k]-th request of the run, sent to [url],
    comes to. *)
Variable server : nat -> string -> response.

(** [datetime.fromtimestamp(t / 1000).strftime('%Y-%m-%d %H:%M:%S')] for
    a number [t]: the local calendar time, or the exception the
    conversion raises when [t] is out of its range. *)
Variable local_time : Z -> py string.

(** [JenkinsClient.get] *)
Definition get (endpoint : string) : io json :=
  fun w =>
    let url := base_url ++ endpoint in
    let w' := World (S (requests w)) (printed w) in
    match server (requests w) url with
    | Body v => (Returns v, w')
    | RequestFailed => (print (RequestError url) ;; sys_exit 1)%io w'
    | PlainValueError => (print JsonError ;; sys_exit 1)%io w'
    | Crashed e => (Raises e, w')
    end.

(** Lines 134-137: [timestamp / 1000] is defined on numbers only. *)
Definition format_timestamp (timestamp : json) : py string :=
  if py_truth timestamp then
    match timestamp with
    | JInt t => local_time t
    | JBool b => local_time (if b then 1 else 0)
    | JNull | JStr _ | JArr _ | JObj _ => Raise TypeError
    end
  else Ok "Unknown".

(** Lines 122-142 of [_display_build_details]: the row printed for a
    build, from the decoded answer. *)
Definition build_row (build_number build_data : json) : py string :=
  result <- py_get build_data "result" (JStr "UNKNOWN") ;;
  timestamp <- py_get build_data "timestamp" (JInt 0) ;;
  duration <- py_get build_data "duration" (JInt 0) ;;
  causes <- py_get build_data "actions" (JArr []) ;;
  triggered_by <- _extract_trigger_info causes ;;
  actions <- py_get build_data "actions" (JArr []) ;;
  parameters <- _extract_parameters actions ;;
  build_time <- format_timestamp timestamp ;;
  let params_str := _format_parameters parameters in
  col1 <- py_format_ljust build_number 8 ;;
  col2 <- py_format_ljust result 12 ;;
  col3 <- py_format_ljust triggered_by 20 ;;
  Ok (col1 ++ " " ++ col2 ++ " " ++ col3 ++ " " ++ Str.ljust build_time 20
           ++ " " ++ Str.ljust params_str 30).

Definition _display_build_details (job_path : string) (build_number : json)
  : io unit :=
  let endpoint := build_endpoint job_path build_number in
  try_except
    (build_data <- get endpoint ;;
     row <- lift (build_row build_number build_data) ;;
     print (Text row))%io
    (fun e => print (BuildError (py_str build_number) e)).

(** The loop of [job_history] (lines 103-105) over the builds shown. *)
Definition show_builds (job_path : string) (shown : list json) : io unit :=
  for_io (fun build =>
            build_number <- lift (py_get build "number" JNull) ;;
            _display_build_details job_path build_number)%io shown.

Definition history_header : list line :=
  [ Text (dashes 120);
    Text (Str.ljust "Build#" 8 ++ " " ++ Str.ljust "Status" 12 ++ " "
          ++ Str.ljust "Triggered By" 20 ++ " " ++ Str.ljust "Timestamp" 20
          ++ " " ++ Str.ljust "Parameters" 30);
    Text (dashes 120) ].

Definition job_history (job_path : string) : io unit :=
  let job_endpoint := job_history_endpoint job_path in
  let job_path := Str.strip_slash job_path in
  try_except
    (job_data <- get job_endpoint ;;
     builds <- lift (py_get job_data "builds" (JArr [])) ;;
     if negb (py_truth builds) then
       print (Text ("No build history found for job: " ++ job_path))
     else
       print (Text (newline ++ "Build history for job: " ++ job_path)) ;;
       for_io print history_header ;;
       window <- lift (py_slice20 builds) ;;
       shown <- lift (py_iter window) ;;
       show_builds job_path shown ;;
       n <- lift (py_len builds) ;;
       if (20 <? n)%nat then
         print (Text (newline ++ "... and " ++ str_of_nat (n - 20)
                              ++ " more builds (showing last 20)"))
       else io_ret tt)%io
    (fun e => print (HistoryError job_path e) ;; sys_exit 1)%io.

Definition jobs_header : list line :=
  [ Text (dashes 60);
    Text (Str.ljust "Job Name" 40 ++ " " ++ Str.ljust "Status" 15);
    Text (dashes 60) ].

Definition list_jobs (workspace : string) : io unit :=
  let endpoint := list_jobs_endpoint workspace in
  let workspace := Str.strip_slash workspace in
  try_except
    (data <- get endpoint ;;
     jobs <- lift (py_get data "jobs" (JArr [])) ;;
     if negb (py_truth jobs) then
       print (Text ("No jobs found in workspace: /" ++ workspace))
     else
       print (Text (newline ++ "Jobs in workspace /" ++ workspace ++ ":")) ;;
       for_io print jobs_header ;;
       items <- lift (py_iter jobs) ;;
       for_io (fun job =>
                 name <- lift (py_get job "name" (JStr "Unknown")) ;;
                 color <- lift (py_get job "color" (JStr "unknown")) ;;
                 status <- lift (_color_to_status color) ;;
                 col1 <- lift (py_format_ljust name 40) ;;
                 print (Text (col1 ++ " " ++ Str.ljust status 15))) items ;;
       n <- lift (py_len jobs) ;;
       print (Text (newline ++ "Total jobs: " ++ str_of_nat n)))%io
    (fun e => print (JobsError workspace e) ;; sys_exit 1)%io.

(** The commands of [main] (lines 247-257), after the arguments are
    parsed.  An interrupt from the keyboard is not modelled. *)
Inductive command : Type :=
| ListJobs (workspace : string)
| JobHistory (job_path : string).

Definition main (c : command) : io unit :=
  try_except
    match c with
    | ListJobs workspace => list_jobs workspace
    | JobHistory job_path => job_history job_path
    end
    (fun e => print (UnexpectedError e) ;; sys_exit 1)%io.

(** A whole run: no request sent and nothing printed at the start. *)
Definition run (c : command) : ending unit * list line :=
  let (r, w) := main c (World 0 []) in (r, printed w).

End Commands.

(** ** Vocabulary of the statements *)

Definition cause_action (causes : list json) : json :=
  JObj [("_class", JStr CAUSE_ACTION); ("causes", JArr causes)].

Definition parameters_action (params : list json) : json :=
  JObj [("_class", JStr PARAMETERS_ACTION); ("parameters", JArr params)].

Definition parameter (name value : json) : json :=
  JObj [("name", name); ("value", value)].

Definition is_object (v : json) : bool :=
  match v with
  | JObj _ => true
  | _ => false
  end.

(** A cause object that matches no branch: it has neither key. *)
Definition unmatched_cause (cause : json) : bool :=
  match cause with
  | JObj m =>
      match lookup "userId" m, lookup "shortDescription" m with
      | None, None => true
      | _, _ => false
      end
  | _ => false
  end.

(** An action object none of whose causes matches a branch: an action of
    another class, or a CauseAction with unmatched causes only. *)
Definition unmatched_action (action : json) : bool :=
  match action with
  | JObj m =>
      match lookup "_class" m with
      | Some (JStr c) =>
          if String.eqb c CAUSE_ACTION then
            match lookup "causes" m with
            | None => true
            | Some (JArr causes) => forallb unmatched_cause causes
            | Some _ => false
            end
          else true
      | _ => true
      end
  | _ => false
  end.

(** What a cause object with members [m] supplies as the trigger: its
    [userId], or its description without the "Started by" text. *)
Definition supplied (m : list (string * json)) (r : json) : Prop :=
  lookup "userId" m = Some r
  \/ (lookup "userId" m = None
      /\ exists d, lookup "shortDescription" m = Some (JStr d)
                   /\ (r = JStr (Str.replace "Started by user " "" d)
                       \/ r = JStr (Str.replace "Started by " "" d))).

(** The keys of the colour table and the statuses a job can have. *)
Definition colors : list string := map fst color_map.

Definition statuses : list string :=
  [ "SUCCESS"; "FAILURE"; "UNSTABLE"; "NOT_BUILT"; "DISABLED"; "ABORTED";
    "BUILDING"; "UNKNOWN" ].

(** [n] slashes *)
Fixpoint slashes (n : nat) : string :=
  match n with
  | O => EmptyString
  | S k => String "/"%char (slashes k)
  end.

Definition starts_with_slash (s : string) : bool :=
  match s with
  | EmptyString => false
  | String c _ => Str.is_slash c
  end.

Fixpoint ends_with_slash (s : string) : bool :=
  match s with
  | EmptyString => false
  | String c EmptyString => Str.is_slash c
  | String _ s' => ends_with_slash s'
  end.

(** The path with [/job/] in the place of each of its slashes. *)
Fixpoint expand_slashes (s : string) : string :=
  match s with
  | EmptyString => EmptyString
  | String c s' =>
      (if Str.is_slash c then "/job/" else String c EmptyString)
        ++ expand_slashes s'
  end.

(** The parameters as [key=value] pairs joined with a comma and a space,
    in the order of the dict. *)
Definition joined (parameters : pydict) : string :=
  Str.join ", " (map (fun '(k, v) => py_str k ++ "=" ++ v) parameters).

(** The value of a key of a dict, or the default: [m.get(key, default)]
    as a total function on the members. *)
Definition field (m : list (string * json)) (key : string) (default : json)
  : json :=
  match lookup key m with
  | Some x => x
  | None => default
  end.

(** The parameter entries an action carries: those of a
    ParametersAction, none for another action. *)
Definition entries_of (action : json) : list json :=
  match action with
  | JObj m =>
      if eq_str (field m "_class" JNull) PARAMETERS_ACTION then
        match lookup "parameters" m with
        | Some (JArr params) => params
        | _ => []
        end
      else []
  | _ => []
  end.

(** The entries of every ParametersAction of the list, in order. *)
Definition all_entries (actions : list json) : list json :=
  flat_map entries_of actions.

(** What is kept of an entry: its name and its value as a string, when
    both are there and not empty. *)
Definition kept (entry : json) : option (json * string) :=
  match entry with
  | JObj m =>
      let name := field m "name" (JStr "") in
      let value := field m "value" (JStr "") in
      if py_truth name && py_truth value
      then Some (name, py_str value) else None
  | _ => None
  end.

Definition put (d : pydict) (entry : json) : pydict :=
  match kept entry with
  | Some (k, v) => dict_set d k v
  | None => d
  end.

(** The map of the specification: the kept entries are set one after the
    other, a later one over an earlier one of the same name. *)
Definition collect (entries : list json) : pydict := fold_left put entries [].

(** The shape of the actions that extraction works on: action objects,
    where [parameters] of a ParametersAction is absent or a list of
    entry objects whose name can be a key. *)
Definition wf_entry (entry : json) : bool :=
  match entry with
  | JObj m => hashable (field m "name" (JStr ""))
  | _ => false
  end.

Definition wf_action (action : json) : bool :=
  match action with
  | JObj m =>
      if eq_str (field m "_class" JNull) PARAMETERS_ACTION then
        match lookup "parameters" m with
        | None => true
        | Some (JArr params) => forallb wf_entry params
        | Some _ => false
        end
      else true
  | _ => false
  end.

(** The number of a build of the listing: [build.get('number')]. *)
Definition number_of (build : json) : json :=
  match build with
  | JObj m => field m "number" JNull
  | _ => JNull
  end.

Definition detail_url (job_path : string) (build_number : json) : string :=
  base_url ++ build_endpoint job_path build_number.

(** The line a build leaves once its request is answered with
    [build_data]: its row, or, when making the row raises, the error line
    with the number of the build. *)
Definition detail_line (local_time : Z -> py string)
  (build_number build_data : json) : line :=
  match build_row local_time build_number build_data with
  | Ok row => Text row
  | Raise e => BuildError (py_str build_number) e
  end.

Definition history_title (job_path : string) : line :=
  Text (newline ++ "Build history for job: " ++ job_path).

Definition more_builds_notice (n : nat) : list line :=
  if (20 <? n)%nat then
    [Text (newline ++ "... and " ++ str_of_nat (n - 20)
                   ++ " more builds (showing last 20)")]
  else [].

(** The line [l] is what the build [build] of the listing leaves when the
    request for its details is answered: the server has answered that
    request with some [build_data], and [l] is the row or the error line
    made from it. *)
Definition logged (server : nat -> string -> response)
  (local_time : Z -> py string) (job_path : string) (build : json) (l : line)
  : Prop :=
  exists k build_data,
    server k (detail_url job_path (number_of build)) = Body build_data
    /\ l = detail_line local_time (number_of build) build_data.

(** ** Sample answers of a server *)

(** A job with the builds 2 and 1. *)
Definition sample_listing : json :=
  JObj [("builds", JArr [JObj [("number", JInt 2)]; JObj [("number", JInt 1)]])].

(** A build that is still running: Jenkins reports its result as null. *)
Definition running_build : json :=
  JObj [("result", JNull); ("timestamp", JInt 1700000000000);
        ("actions", JArr [])].

Definition finished_build : json :=
  JObj [("result", JStr "SUCCESS"); ("timestamp", JInt 1700000000000);
        ("actions",
         JArr [cause_action [JObj [("userId", JStr "alice")]];
               parameters_action [parameter (JStr "ENV") (JStr "prod")]])].

(** A clock that shows the same time for every timestamp. *)
Definition sample_time (t : Z) : py string := Ok "2023-11-14 22:13:20".

(** The listing is answered, the requests for the builds fail. *)
Definition failing_server (k : nat) (url : string) : response :=
  match k with
  | O => Body sample_listing
  | S _ => RequestFailed
  end.

(** The listing is answered, decoding the answer for build 2 raises an
    exception that [get] does not catch, build 1 is finished. *)
Definition crashing_server (k : nat) (url : string) : response :=
  match k with
  | O => Body sample_listing
  | S O => Crashed RecursionError
  | S (S _) => Body finished_build
  end.

(** Every request is answered: build 2 is running, build 1 is finished. *)
Definition answering_server (k : nat) (url : string) : response :=
  match k with
  | O => Body sample_listing
  | S O => Body running_build
  | S (S _) => Body finished_build
  end.

(** ** Vocabulary of the further statements *)

(** What a call leaves behind, whatever the server answers: it only adds
    lines to what was printed, it sends at most [n] requests, it exits
    with status 1 only, an exception leaves it only if [raises] allows,
    and a value it returns satisfies [post]. *)
Definition behaves {A : Type} (m : io A) (n : nat) (raises : bool)
  (post : A -> Prop) : Prop :=
  forall w,
    let (r, w') := m w in
    (exists added, printed w' = (printed w ++ added)%list)
    /\ (requests w <= requests w' <= requests w + n)%nat
    /\ match r with
       | Returns a => post a
       | Raises _ => raises = true
       | Exits code => code = 1%Z
       end.

Definition anything {A : Type} (a : A) : Prop := True.

(** The command without the handler of [main]. *)
Definition dispatch (server : nat -> string -> response)
  (local_time : Z -> py string) (c : command) : io unit :=
  match c with
  | ListJobs workspace => list_jobs server workspace
  | JobHistory job_path => job_history server local_time job_path
  end.

(** The endpoint of the first request of a command. *)
Definition first_endpoint (c : command) : string :=
  match c with
  | ListJobs workspace => list_jobs_endpoint workspace
  | JobHistory job_path => job_history_endpoint job_path
  end.

(** The line of the handler of a command for the exception [e]. *)
Definition command_error (c : command) (e : exn) : line :=
  match c with
  | ListJobs workspace => JobsError (Str.strip_slash workspace) e
  | JobHistory job_path => HistoryError (Str.strip_slash job_path) e
  end.

(** The line of a command that finds nothing to show. *)
Definition nothing_found (c : command) : line :=
  match c with
  | ListJobs workspace =>
      Text ("No jobs found in workspace: /" ++ Str.strip_slash workspace)
  | JobHistory job_path =>
      Text ("No build history found for job: " ++ Str.strip_slash job_path)
  end.

(** The key of the answer a command reads its list from. *)
Definition list_key (c : command) : string :=
  match c with
  | ListJobs _ => "jobs"
  | JobHistory _ => "builds"
  end.

(** A server that is down, and one that answers every request with the
    same body. *)
Definition down_server (k : nat) (url : string) : response := RequestFailed.

Definition constant_server (v : json) (k : nat) (url : string) : response :=
  Body v.

(** The status shown for a colour string. *)
Definition status_of (color : string) : string :=
  match assoc color color_map with
  | Some status => status
  | None => "UNKNOWN"
  end.

(** The job object [job] carries the name and the colour given, as
    strings (an absent name counts as "Unknown", an absent colour as
    "unknown"). *)
Definition job_shows (job : json) (shown : string * string) : Prop :=
  exists m,
    job = JObj m
    /\ field m "name" (JStr "Unknown") = JStr (fst shown)
    /\ field m "color" (JStr "unknown") = JStr (snd shown).

Definition job_line (shown : string * string) : line :=
  Text (Str.ljust (fst shown) 40 ++ " " ++ Str.ljust (status_of (snd shown)) 15).

Definition jobs_title (workspace : string) : line :=
  Text (newline ++ "Jobs in workspace /" ++ workspace ++ ":").

Definition jobs_total (n : nat) : line :=
  Text (newline ++ "Total jobs: " ++ str_of_nat n).

(** A folder with two jobs, the second without a colour. *)
Definition sample_jobs : json :=
  JObj [("jobs", JArr [JObj [("name", JStr "api"); ("color", JStr "blue_anime")];
                       JObj [("name", JStr "web")]])].




(** A cause as Jenkins sends it: an object whose [userId], when there,
    is a string, and whose [shortDescription], when it is the key that
    counts, is a string. *)
Definition wf_cause (cause : json) : bool :=
  match cause with
  | JObj m =>
      match lookup "userId" m with
      | Some (JStr _) => true
      | Some _ => false
      | None =>
          match lookup "shortDescription" m with
          | None | Some (JStr _) => true
          | Some _ => false
          end
      end
  | _ => false
  end.

(** An action object whose causes, when it is a CauseAction, are a list
    of such causes (or absent). *)
Definition wf_cause_action (action : json) : bool :=
  match action with
  | JObj m =>
      if eq_str (field m "_class" JNull) CAUSE_ACTION then
        match lookup "causes" m with
        | None => true
        | Some (JArr causes) => forallb wf_cause causes
        | Some _ => false
        end
      else true
  | _ => false
  end.

Definition has_class (class : string) (action : json) : bool :=
  match action with
  | JObj m => eq_str (field m "_class" JNull) class
  | _ => false
  end.

(** No two keys of the dict are equal. *)
Fixpoint distinct_keys (d : pydict) : bool :=
  match d with
  | [] => true
  | (k, _) :: rest =>
      negb (existsb (fun kv => key_eqb (fst kv) k) rest) && distinct_keys rest
  end.

(** The width of a row of the history: the five columns and the spaces
    between them. *)
Definition row_width : nat := 8 + 1 + 12 + 1 + 20 + 1 + 20 + 1 + 30.

Definition is_string (v : json) : Prop := exists s, v = JStr s.

(** The parameters dict that extraction hands back: keys that differ
    from one another, each a hashable value that is not empty, and
    values that are not empty. *)
Definition sound_parameters (d : pydict) : Prop :=
  distinct_keys d = true
  /\ forall k v, In (k, v) d ->
                 hashable k = true /\ py_truth k = true /\ v <> "".


(** The text a value shows in a column of a row, before it is padded: a
    string is itself, an [int] its decimal digits, [True] and [False] 1
    and 0; the other values have none. *)
Definition column_text (v : json) : option string :=
  match v with
  | JStr s => Some s
  | JInt z => Some (str_of_Z z)
  | JBool b => Some (if b then "1" else "0")
  | JNull | JArr _ | JObj _ => None
  end.

(** A column of a row: the text in full, followed by the spaces that are
    missing up to the width, if any. *)
Definition column (text : string) (width : nat) : string :=
  text ++ Str.spaces (width - String.length text).

(** * Properties *)

Example replace_nested :
  Str.replace "/" "/job/" "a/b/c" = "a/job/b/job/c".
Proof. reflexivity. Qed.

Example strip_both : Str.strip_slash "//x/y/" = "x/y".
Proof. reflexivity. Qed.

(** ** Loops *)

Lemma for_return_found {A R : Type} (body : A -> py (option R)) xs r :
  for_return body xs = Ok (Some r) ->
  exists x, In x xs /\ body x = Ok (Some r).
Proof.
  induction xs as [|x rest IH]; simpl; [discriminate|].
  destruct (body x) as [[v|]|e] eqn:Hx; simpl; intro H.
  - exists x. split; [now left|]. congruence.
  - destruct (IH H) as [y [Hin Hy]]. exists y. split; [now right|exact Hy].
  - discriminate.
Qed.

Lemma for_return_skip {A R : Type} (body : A -> py (option R)) pre post :
  Forall (fun x => body x = Ok None) pre ->
  for_return body (pre ++ post)%list = for_return body post.
Proof.
  induction 1 as [|x pre Hx _ IH]; simpl; [reflexivity|].
  rewrite Hx. simpl. exact IH.
Qed.

Lemma for_return_first {A R : Type} (body : A -> py (option R)) pre x post r :
  Forall (fun x => body x = Ok None) pre ->
  body x = Ok (Some r) ->
  for_return body (pre ++ x :: post)%list = Ok (Some r).
Proof.
  intros Hpre Hx. rewrite for_return_skip by exact Hpre.
  simpl. rewrite Hx. reflexivity.
Qed.

(** ** Trigger extraction *)

Lemma unmatched_cause_skipped cause :
  unmatched_cause cause = true -> trigger_of_cause cause = Ok None.
Proof.
  destruct cause as [| | | |?|m]; simpl; try discriminate.
  unfold trigger_of_cause. simpl.
  destruct (lookup "userId" m); [discriminate|].
  destruct (lookup "shortDescription" m); [discriminate|]. reflexivity.
Qed.

Lemma unmatched_causes_skipped causes :
  forallb unmatched_cause causes = true ->
  Forall (fun c => trigger_of_cause c = Ok None) causes.
Proof.
  rewrite forallb_forall, Forall_forall. intros H c Hc.
  apply unmatched_cause_skipped, H, Hc.
Qed.

Lemma unmatched_action_skipped action :
  unmatched_action action = true -> trigger_of_action action = Ok None.
Proof.
  destruct action as [| | | |?|m]; simpl; try discriminate.
  unfold trigger_of_action. simpl.
  destruct (lookup "_class" m) as [[| | |c| |]|]; simpl; try reflexivity.
  destruct (String.eqb c CAUSE_ACTION); [|reflexivity].
  destruct (lookup "causes" m) as [[| | | |causes|]|]; simpl;
    try discriminate; try reflexivity.
  intro H. rewrite <- (app_nil_r causes).
  rewrite for_return_skip by (apply unmatched_causes_skipped, H).
  reflexivity.
Qed.

Lemma unmatched_actions_skipped actions :
  forallb unmatched_action actions = true ->
  Forall (fun a => trigger_of_action a = Ok None) actions.
Proof.
  rewrite forallb_forall, Forall_forall. intros H a Ha.
  apply unmatched_action_skipped, H, Ha.
Qed.

Lemma trigger_of_cause_returned cause r :
  trigger_of_cause cause = Ok (Some r) ->
  exists m, cause = JObj m /\ (r = JStr "SCM/Timer" \/ supplied m r).
Proof.
  unfold trigger_of_cause.
  destruct cause as [| | |s|items|m]; simpl; try discriminate.
  - destruct (Str.contains "userId" s); simpl; [discriminate|].
    destruct (Str.contains "shortDescription" s); simpl; discriminate.
  - destruct (existsb _ items); simpl; [discriminate|].
    destruct (existsb _ items); simpl; discriminate.
  - intro H. exists m. split; [reflexivity|]. unfold supplied.
    destruct (lookup "userId" m) as [x|]; simpl in H.
    + right. left. congruence.
    + destruct (lookup "shortDescription" m) as [desc|]; simpl in H;
        [|discriminate].
      destruct desc as [| | |d|l|o]; simpl in H; try discriminate.
      * destruct (Str.contains "Started by user" d); simpl in H.
        { right. right. split; [reflexivity|]. exists d.
          split; [reflexivity|]. left. congruence. }
        destruct (Str.contains "Started by" d); simpl in H.
        { right. right. split; [reflexivity|]. exists d.
          split; [reflexivity|]. right. congruence. }
        left. congruence.
      * destruct (existsb _ l); simpl in H; [discriminate|].
        destruct (existsb _ l); simpl in H; [discriminate|].
        left. congruence.
      * destruct (lookup "Started by user" o); simpl in H; [discriminate|].
        destruct (lookup "Started by" o); simpl in H; [discriminate|].
        left. congruence.
Qed.

Lemma trigger_of_action_returned action r :
  trigger_of_action action = Ok (Some r) ->
  exists am causes cm,
    action = JObj am
    /\ lookup "_class" am = Some (JStr CAUSE_ACTION)
    /\ lookup "causes" am = Some (JArr causes)
    /\ In (JObj cm) causes
    /\ (r = JStr "SCM/Timer" \/ supplied cm r).
Proof.
  unfold trigger_of_action.
  destruct action as [| | | |?|am]; simpl; try discriminate.
  destruct (lookup "_class" am) as [[| | |c| |]|] eqn:Hc; simpl;
    try discriminate.
  destruct (String.eqb c CAUSE_ACTION) eqn:Hcls; [|discriminate].
  apply String.eqb_eq in Hcls. subst c.
  assert (Hchars : forall s, for_return trigger_of_cause (map JStr s)
                             <> Ok (Some r)).
  { intros s H. apply for_return_found in H. destruct H as [x [Hin Hx]].
    apply in_map_iff in Hin. destruct Hin as [t [<- _]].
    apply trigger_of_cause_returned in Hx. destruct Hx as [m [Hm _]].
    discriminate. }
  destruct (lookup "causes" am) as [[| | |s|causes|o]|] eqn:Hcauses; simpl;
    try discriminate.
  - intro H. exfalso. exact (Hchars _ H).
  - intro H. apply for_return_found in H. destruct H as [x [Hin Hx]].
    apply trigger_of_cause_returned in Hx. destruct Hx as [cm [-> Hr]].
    exists am, causes, cm. auto.
  - rewrite <- map_map with (f := fst) (g := JStr).
    intro H. exfalso. exact (Hchars _ H).
Qed.

(** C1, counterexample: the build started by the timer is not reported as
    "SCM/Timer". *)
Lemma timer_cause_is_not_scm_timer :
  _extract_trigger_info
    (JArr [cause_action [JObj [("shortDescription", JStr "Started by timer")]]])
  <> Ok (JStr "SCM/Timer").
Proof. vm_compute. discriminate. Qed.

(** C1, as amended: for the actions list made of one CauseAction whose
    single cause has no userId and the description "Started by timer",
    the trigger is "timer", the description without "Started by "; for
    any description in that place, "SCM/Timer" is the answer only when
    the description contains no "Started by". *)
Theorem trigger_of_timer_description :
  _extract_trigger_info
    (JArr [cause_action [JObj [("shortDescription", JStr "Started by timer")]]])
  = Ok (JStr "timer")
  /\ forall d,
      _extract_trigger_info
        (JArr [cause_action [JObj [("shortDescription", JStr d)]]])
      = Ok (JStr (if Str.contains "Started by user" d
                  then Str.replace "Started by user " "" d
                  else if Str.contains "Started by" d
                       then Str.replace "Started by " "" d
                       else "SCM/Timer")).
Proof.
  split; [reflexivity|]. intro d.
  unfold _extract_trigger_info, cause_action. simpl.
  unfold trigger_of_action. simpl.
  unfold trigger_of_cause. simpl.
  destruct (Str.contains "Started by user" d); simpl; [reflexivity|].
  destruct (Str.contains "Started by" d); reflexivity.
Qed.

(** C4, counterexample: an empty userId is returned as it is. *)
Lemma empty_user_id_gives_empty_trigger :
  _extract_trigger_info (JArr [cause_action [JObj [("userId", JStr "")]]])
  = Ok (JStr "")
  /\ _extract_trigger_info
       (JArr [cause_action [JObj [("shortDescription", JStr "Started by ")]]])
     = Ok (JStr "").
Proof. split; reflexivity. Qed.

(** C4, as amended: when trigger extraction returns, the result is the
    literal "Unknown" or "SCM/Timer", or it is supplied by a cause of a
    CauseAction of the list (its userId, or its description without the
    "Started by" text) and returned as it is, empty or not; and when no
    cause of the list matches a branch the result is "Unknown". *)
Theorem trigger_is_literal_or_supplied actions :
  (forall r,
      _extract_trigger_info (JArr actions) = Ok r ->
      r = JStr "Unknown" \/ r = JStr "SCM/Timer"
      \/ exists am causes cm,
          In (JObj am) actions
          /\ lookup "_class" am = Some (JStr CAUSE_ACTION)
          /\ lookup "causes" am = Some (JArr causes)
          /\ In (JObj cm) causes
          /\ supplied cm r)
  /\ (forallb unmatched_action actions = true ->
      _extract_trigger_info (JArr actions) = Ok (JStr "Unknown")).
Proof.
  split.
  - intro r. unfold _extract_trigger_info. simpl.
    destruct (for_return trigger_of_action actions) as [[v|]|e] eqn:H; simpl;
      intro Hr; inversion Hr; subst; clear Hr; [|now left].
    apply for_return_found in H. destruct H as [a [Hin Ha]].
    apply trigger_of_action_returned in Ha.
    destruct Ha as [am [causes [cm [-> [Hc [Hcs [Hcm [Hlit|Hsup]]]]]]]].
    + right. now left.
    + right. right. exists am, causes, cm. auto.
  - intro H. unfold _extract_trigger_info. simpl.
    rewrite <- (app_nil_r actions).
    rewrite for_return_skip by (apply unmatched_actions_skipped, H).
    reflexivity.
Qed.

Lemma trigger_is_literal_or_supplied_witness :
  _extract_trigger_info
    (JArr [JObj [("_class", JStr "hudson.model.ParametersAction")];
           cause_action [JObj [("note", JStr "x")]]])
  = Ok (JStr "Unknown")
  /\ (JStr "" = JStr "Unknown" \/ JStr "" = JStr "SCM/Timer"
      \/ exists am causes cm,
          In (JObj am) [cause_action [JObj [("userId", JStr "")]]]
          /\ lookup "_class" am = Some (JStr CAUSE_ACTION)
          /\ lookup "causes" am = Some (JArr causes)
          /\ In (JObj cm) causes
          /\ supplied cm (JStr "")).
Proof.
  split.
  - apply (proj2 (trigger_is_literal_or_supplied
                    [JObj [("_class", JStr "hudson.model.ParametersAction")];
                     cause_action [JObj [("note", JStr "x")]]])).
    reflexivity.
  - apply (proj1 (trigger_is_literal_or_supplied
                    [cause_action [JObj [("userId", JStr "")]]])).
    reflexivity.
Defined.

(** C5, counterexample: the first CauseAction has one cause that matches
    no branch, and the cause of the second CauseAction gives the
    result. *)
Lemma later_cause_action_is_used :
  _extract_trigger_info
    (JArr [cause_action [JObj []];
           cause_action [JObj [("userId", JStr "bob")]]])
  = Ok (JStr "bob").
Proof. reflexivity. Qed.

(** C5, as amended: the result comes from the first cause that matches a
    branch, in the order of the list over all its CauseActions: actions
    without a matching cause before it are passed over, also when they
    are CauseActions, and neither the causes after it nor the actions
    after its CauseAction are consulted. *)
Theorem trigger_is_first_matching_cause pre am before cause after post r :
  forallb unmatched_action pre = true ->
  lookup "_class" am = Some (JStr CAUSE_ACTION) ->
  lookup "causes" am = Some (JArr (before ++ cause :: after)%list) ->
  forallb unmatched_cause before = true ->
  trigger_of_cause cause = Ok (Some r) ->
  _extract_trigger_info (JArr (pre ++ JObj am :: post)%list) = Ok r.
Proof.
  intros Hpre Hcls Hcauses Hbefore Hcause.
  unfold _extract_trigger_info. simpl.
  rewrite for_return_first with (r := r); [reflexivity| |].
  - apply unmatched_actions_skipped, Hpre.
  - unfold trigger_of_action. simpl. rewrite Hcls. simpl.
    rewrite Hcauses. simpl.
    apply for_return_first; [|exact Hcause].
    apply unmatched_causes_skipped, Hbefore.
Qed.

Lemma trigger_is_first_matching_cause_witness :
  _extract_trigger_info
    (JArr ([cause_action [JObj []]]
           ++ JObj [("_class", JStr CAUSE_ACTION);
                    ("causes", JArr ([JObj [("id", JInt 1)]]
                                     ++ JObj [("userId", JStr "bob")]
                                     :: [JObj [("userId", JStr "eve")]])%list)]
           :: [cause_action [JObj [("userId", JStr "mallory")]]; JInt 3])%list)
  = Ok (JStr "bob").
Proof.
  apply (trigger_is_first_matching_cause
           [cause_action [JObj []]]
           [("_class", JStr CAUSE_ACTION);
            ("causes", JArr [JObj [("id", JInt 1)];
                             JObj [("userId", JStr "bob")];
                             JObj [("userId", JStr "eve")]])]
           [JObj [("id", JInt 1)]]
           (JObj [("userId", JStr "bob")])
           [JObj [("userId", JStr "eve")]]
           [cause_action [JObj [("userId", JStr "mallory")]]; JInt 3]
           (JStr "bob"));
    reflexivity.
Defined.

(** ** Status of a job *)

(** C9: each colour of the table has the status the table gives, any
    other string has "UNKNOWN", and so the status of a colour string
    always exists and is one of the eight statuses. *)
Theorem color_to_status_table :
  map (fun c => _color_to_status (JStr c))
      [ "blue"; "red"; "yellow"; "grey"; "disabled"; "aborted";
        "blue_anime"; "red_anime"; "yellow_anime" ]
  = [ Ok "SUCCESS"; Ok "FAILURE"; Ok "UNSTABLE"; Ok "NOT_BUILT";
      Ok "DISABLED"; Ok "ABORTED"; Ok "BUILDING"; Ok "BUILDING";
      Ok "BUILDING" ]
  /\ (forall c, ~ In c colors -> _color_to_status (JStr c) = Ok "UNKNOWN")
  /\ (forall c, exists status,
         _color_to_status (JStr c) = Ok status /\ In status statuses).
Proof.
  assert (Hassoc : forall c table,
             assoc c table = None \/ exists status, assoc c table = Some status
                                     /\ In (c, status) table).
  { intros c table. induction table as [|[k x] rest IH]; simpl; [now left|].
    destruct (String.eqb k c) eqn:Hk.
    - apply String.eqb_eq in Hk. subst k. right. exists x. auto.
    - destruct IH as [IH|[status [IH Hin]]]; [now left|].
      right. exists status. auto. }
  split; [reflexivity|]. split.
  - intros c Hc. unfold _color_to_status.
    destruct (Hassoc c color_map) as [->|[status [_ Hin]]]; [reflexivity|].
    exfalso. apply Hc. unfold colors.
    change c with (fst (c, status)). apply in_map. exact Hin.
  - intro c. unfold _color_to_status.
    destruct (Hassoc c color_map) as [->|[status [-> Hin]]].
    + exists "UNKNOWN". split; [reflexivity|]. simpl. tauto.
    + exists status. split; [reflexivity|].
      simpl in Hin.
      repeat (destruct Hin as [Hin|Hin];
              [inversion Hin; subst; simpl; tauto|]).
      contradiction.
Qed.

Lemma color_to_status_table_witness :
  _color_to_status (JStr "purple") = Ok "UNKNOWN".
Proof.
  apply (proj1 (proj2 color_to_status_table)).
  unfold colors. simpl. intros H.
  repeat (destruct H as [H|H]; [discriminate H|]). exact H.
Defined.

(** ** Path resolution *)

Lemma is_slash_eq c : Str.is_slash c = true -> c = "/"%char.
Proof. unfold Str.is_slash. apply Ascii.eqb_eq. Qed.

Lemma lstrip_slash_spec s :
  (exists n, s = slashes n ++ Str.lstrip_slash s)
  /\ starts_with_slash (Str.lstrip_slash s) = false.
Proof.
  induction s as [|c s [[n IHn] IHs]]; simpl.
  - split; [exists 0; reflexivity|reflexivity].
  - destruct (Str.is_slash c) eqn:Hc.
    + apply is_slash_eq in Hc. subst c. split; [|exact IHs].
      exists (S n). simpl. f_equal. exact IHn.
    + split; [exists 0; reflexivity|]. simpl. exact Hc.
Qed.

Lemma rstrip_slash_spec s :
  (exists m, s = Str.rstrip_slash s ++ slashes m)
  /\ ends_with_slash (Str.rstrip_slash s) = false
  /\ (starts_with_slash s = false ->
      starts_with_slash (Str.rstrip_slash s) = false).
Proof.
  induction s as [|c s [[m IHm] [IHe _]]]; simpl.
  - split; [exists 0; reflexivity|]. split; reflexivity.
  - destruct (Str.is_slash c) eqn:Hc; simpl.
    + destruct (Str.rstrip_slash s) as [|c' r] eqn:Hr; simpl.
      * apply is_slash_eq in Hc. subst c. split; [|split; [reflexivity|auto]].
        exists (S m). simpl. f_equal. exact IHm.
      * split; [exists m; simpl; f_equal; exact IHm|].
        split; [exact IHe|]. intro H. discriminate H.
    + split; [exists m; simpl; f_equal; exact IHm|].
      split; [|intros _; exact Hc].
      destruct (Str.rstrip_slash s) as [|c' r]; [exact Hc|exact IHe].
Qed.

Lemma replace_slash_expands s :
  Str.replace "/" "/job/" s = expand_slashes s.
Proof.
  unfold Str.replace.
  induction s as [|c s IH]; [reflexivity|].
  cbn [Str.replace_from expand_slashes prefix String.length Nat.sub].
  unfold Str.is_slash.
  destruct (ascii_dec "/" c) as [<-|Hne].
  - replace (prefix "" s) with true by (destruct s; reflexivity).
    cbn. cbn in IH. rewrite IH. reflexivity.
  - replace (Ascii.eqb c "/") with false
      by (symmetry; apply Ascii.eqb_neq; congruence).
    cbn. rewrite IH. reflexivity.
Qed.

(** C6: resolving a path takes away all its leading and trailing
    slashes; job-history puts [/job/] in the place of every slash left
    and list-jobs uses the stripped string as it is. *)
Theorem path_resolution path :
  let p := Str.strip_slash path in
  (exists n m, path = slashes n ++ p ++ slashes m)
  /\ starts_with_slash p = false
  /\ ends_with_slash p = false
  /\ job_history_endpoint path
     = "/job/" ++ expand_slashes p ++ "/api/json?tree=builds[number,url]"
  /\ list_jobs_endpoint path
     = "/job/" ++ p ++ "/api/json?tree=jobs[name,url,color]"
  /\ expand_slashes "a/b/c" = "a/job/b/job/c"
  /\ job_history_endpoint "/a/b/c/"
     = "/job/a/job/b/job/c/api/json?tree=builds[number,url]"
  /\ list_jobs_endpoint "/a/b/c/"
     = "/job/a/b/c/api/json?tree=jobs[name,url,color]".
Proof.
  intro p. subst p. unfold Str.strip_slash.
  destruct (lstrip_slash_spec path) as [[n Hn] Hl].
  destruct (rstrip_slash_spec (Str.lstrip_slash path)) as [[m Hm] [He Hs]].
  repeat split; auto.
  - exists n, m. rewrite <- Hm. exact Hn.
  - unfold job_history_endpoint, Str.strip_slash.
    rewrite replace_slash_expands. reflexivity.
Qed.

(** ** Rendering the parameters *)

Lemma length_app (s t : string) :
  String.length (s ++ t) = (String.length s + String.length t)%nat.
Proof. induction s as [|c s IH]; simpl; [reflexivity|]. now rewrite IH. Qed.

Lemma take_length n s :
  (n <= String.length s)%nat -> String.length (Str.take n s) = n.
Proof.
  unfold Str.take. revert s.
  induction n as [|n IH]; intros [|c s]; simpl; intro H;
    try reflexivity; try lia.
  f_equal. apply IH. lia.
Qed.

Lemma take_is_prefix n s : exists rest, s = Str.take n s ++ rest.
Proof.
  unfold Str.take. revert s.
  induction n as [|n IH]; intros [|c s]; simpl.
  - exists "". reflexivity.
  - exists (String c s). reflexivity.
  - exists "". reflexivity.
  - destruct (IH s) as [rest Hrest]. exists rest. f_equal. exact Hrest.
Qed.

(** C8: the pairs are joined with ", " in the order of the dict; the
    joined string is cut to its first 22 characters followed by "..."
    exactly when it has more than 25 characters, and is rendered as it is
    otherwise; the empty dict is rendered as "None". *)
Theorem format_parameters_rule d :
  _format_parameters [] = "None"
  /\ (d <> [] -> (String.length (joined d) <= 25)%nat ->
      _format_parameters d = joined d)
  /\ (d <> [] -> (25 < String.length (joined d))%nat ->
      _format_parameters d = Str.take 22 (joined d) ++ "..."
      /\ String.length (Str.take 22 (joined d)) = 22%nat
      /\ (exists rest, joined d = Str.take 22 (joined d) ++ rest)
      /\ _format_parameters d <> joined d).
Proof.
  split; [reflexivity|].
  assert (Hdef : d <> [] ->
                 _format_parameters d
                 = if (25 <? String.length (joined d))%nat
                   then Str.take 22 (joined d) ++ "..." else joined d).
  { destruct d; [congruence|reflexivity]. }
  split.
  - intros Hd Hlen. rewrite (Hdef Hd).
    destruct (Nat.ltb_spec 25 (String.length (joined d))); [lia|reflexivity].
  - intros Hd Hlen. rewrite (Hdef Hd).
    destruct (Nat.ltb_spec 25 (String.length (joined d))); [|lia].
    assert (H22 : String.length (Str.take 22 (joined d)) = 22%nat)
      by (apply take_length; lia).
    repeat split; auto using take_is_prefix.
    intro Heq. apply (f_equal String.length) in Heq.
    rewrite length_app, H22 in Heq. simpl in Heq. lia.
Qed.

Lemma format_parameters_rule_witness :
  _format_parameters
    [(JStr "A", "1"); (JStr "B", "2"); (JStr "C", "3"); (JStr "D", "4");
     (JStr "EE", "5")]
  = "A=1, B=2, C=3, D=4, EE=5"
  /\ _format_parameters
       [(JStr "A", "1"); (JStr "B", "2"); (JStr "C", "3"); (JStr "D", "4");
        (JStr "EE", "55")]
     = "A=1, B=2, C=3, D=4, EE=55"
  /\ _format_parameters
       [(JStr "A", "1"); (JStr "B", "2"); (JStr "C", "3"); (JStr "D", "4");
        (JStr "EE", "555")]
     = "A=1, B=2, C=3, D=4, EE..."
  /\ String.length "A=1, B=2, C=3, D=4, EE=5" = 24%nat
  /\ String.length "A=1, B=2, C=3, D=4, EE=55" = 25%nat.
Proof.
  split; [|split; [|split; [|split; reflexivity]]].
  - apply (proj1 (proj2 (format_parameters_rule
             [(JStr "A", "1"); (JStr "B", "2"); (JStr "C", "3");
              (JStr "D", "4"); (JStr "EE", "5")])));
      [discriminate|simpl; lia].
  - apply (proj1 (proj2 (format_parameters_rule
             [(JStr "A", "1"); (JStr "B", "2"); (JStr "C", "3");
              (JStr "D", "4"); (JStr "EE", "55")])));
      [discriminate|simpl; lia].
  - refine (proj1 (proj2 (proj2 (format_parameters_rule
             [(JStr "A", "1"); (JStr "B", "2"); (JStr "C", "3");
              (JStr "D", "4"); (JStr "EE", "555")])) _ _));
      [discriminate|simpl; lia].
Defined.

(** ** Parameter extraction *)

Lemma for_each_fold {A S : Type} (body : S -> A -> py S) (f : S -> A -> S) xs :
  (forall s x, In x xs -> body s x = Ok (f s x)) ->
  forall s, for_each body xs s = Ok (fold_left f xs s).
Proof.
  induction xs as [|x rest IH]; intros H s; simpl; [reflexivity|].
  rewrite H by now left. simpl. apply IH.
  intros s' y Hy. apply H. now right.
Qed.

Lemma for_each_app {A S : Type} (body : S -> A -> py S) xs ys s :
  for_each body (xs ++ ys)%list s
  = (s' <- for_each body xs s ;; for_each body ys s').
Proof.
  revert s. induction xs as [|x rest IH]; intro s; simpl; [reflexivity|].
  destruct (body s x) as [s'|e]; simpl; [apply IH|reflexivity].
Qed.

Lemma add_parameter_put d entry :
  wf_entry entry = true -> add_parameter d entry = Ok (put d entry).
Proof.
  destruct entry as [| | | |?|m]; simpl; try discriminate.
  unfold add_parameter, put, kept, py_setitem, field. simpl.
  intro Hname.
  destruct (py_truth _ && py_truth _); [|reflexivity].
  rewrite Hname. reflexivity.
Qed.

Lemma add_parameters_of_put d action :
  wf_action action = true ->
  add_parameters_of d action = Ok (fold_left put (entries_of action) d).
Proof.
  destruct action as [| | | |?|m]; simpl; try discriminate.
  unfold add_parameters_of, field. simpl.
  destruct (eq_str _ PARAMETERS_ACTION); [|reflexivity].
  destruct (lookup "parameters" m) as [[| | | |params|]|]; simpl;
    try discriminate; try reflexivity.
  intro H. apply for_each_fold. intros s x Hx.
  apply add_parameter_put.
  rewrite forallb_forall in H. apply H, Hx.
Qed.

Lemma extract_parameters_collect actions :
  forallb wf_action actions = true ->
  _extract_parameters (JArr actions) = Ok (collect (all_entries actions)).
Proof.
  intro H. unfold _extract_parameters, collect, all_entries. simpl.
  generalize (@nil (json * string)) as d.
  induction actions as [|a rest IH]; intro d; simpl; [reflexivity|].
  simpl in H. apply andb_prop in H. destruct H as [Ha Hrest].
  rewrite add_parameters_of_put by exact Ha. simpl.
  rewrite fold_left_app. apply IH, Hrest.
Qed.

Lemma str_of_Z_not_empty z : str_of_Z z <> "".
Proof.
  unfold str_of_Z. destruct (Z.to_int z) as [u|u]; simpl; [|discriminate].
  destruct u; simpl; discriminate.
Qed.

Lemma py_str_not_empty x : py_truth x = true -> py_str x <> "".
Proof.
  destruct x as [|[|]|z|s|items|members]; simpl; try discriminate.
  - intros _. apply str_of_Z_not_empty.
  - destruct s; simpl; [discriminate|]. intros _. discriminate.
Qed.

Lemma kept_not_empty entry k v :
  kept entry = Some (k, v) -> py_truth k = true /\ v <> "".
Proof.
  destruct entry as [| | | |?|m]; simpl; try discriminate.
  destruct (py_truth (field m "name" (JStr ""))) eqn:Hn; simpl;
    [|discriminate].
  destruct (py_truth (field m "value" (JStr ""))) eqn:Hv; [|discriminate].
  intro H. inversion H; subst. split; [exact Hn|].
  apply py_str_not_empty, Hv.
Qed.

Lemma dict_set_in d key value k v :
  In (k, v) (dict_set d key value) ->
  In (k, v) d \/ (v = value /\ (k = key \/ exists x, In (k, x) d)).
Proof.
  induction d as [|[k' x] rest IH]; simpl.
  - intros [H|[]]. inversion H; subst. right. auto.
  - destruct (key_eqb k' key).
    + intros [H|H].
      * inversion H; subst. right. split; [reflexivity|].
        right. exists x. now left.
      * left. now right.
    + intros [H|H]; [left; now left|].
      destruct (IH H) as [Hin|[Hv [Hk|[y Hy]]]]; [left; now right| |].
      * right. auto.
      * right. split; [exact Hv|]. right. exists y. now right.
Qed.

Lemma collect_not_empty entries k v :
  In (k, v) (collect entries) -> py_truth k = true /\ v <> "".
Proof.
  unfold collect.
  assert (H : forall d,
             (forall k v, In (k, v) d -> py_truth k = true /\ v <> "") ->
             forall k v, In (k, v) (fold_left put entries d) ->
                         py_truth k = true /\ v <> "").
  { induction entries as [|e rest IH]; intros d Hd; simpl; [exact Hd|].
    apply IH. intros k' v' Hin. unfold put in Hin.
    destruct (kept e) as [[k0 v0]|] eqn:He; [|apply Hd, Hin].
    destruct (kept_not_empty _ _ _ He) as [Hk0 Hv0].
    destruct (dict_set_in _ _ _ _ _ Hin) as [Hold|[-> [->|[x Hx]]]].
    - apply Hd, Hold.
    - auto.
    - split; [|exact Hv0]. apply (Hd _ _ Hx). }
  apply H. intros ? ? [].
Qed.

Lemma key_eqb_refl k : hashable k = true -> key_eqb k k = true.
Proof.
  destruct k as [|[|]|z|s| |]; simpl; try discriminate; intros _;
    auto using String.eqb_refl, Z.eqb_refl.
Qed.

Lemma key_eqb_left a b c :
  key_eqb a b = true -> key_eqb a c = true -> key_eqb b c = true.
Proof.
  destruct a as [|p|x|s| |], b as [|q|y|t| |]; cbn -[Z.eqb];
    try discriminate; intro Hab;
    destruct c as [|r|z|u| |]; cbn -[Z.eqb]; try discriminate; intro Hac;
    rewrite ?String.eqb_eq, ?Z.eqb_eq in *; congruence.
Qed.

Lemma dict_get_set_same d key value :
  hashable key = true -> dict_get (dict_set d key value) key = Some value.
Proof.
  intro Hk. induction d as [|[k x] rest IH]; simpl.
  - now rewrite key_eqb_refl.
  - destruct (key_eqb k key) eqn:E; simpl; rewrite E; [reflexivity|exact IH].
Qed.

Lemma dict_get_set_other d key value n :
  key_eqb key n = false ->
  dict_get (dict_set d key value) n = dict_get d n.
Proof.
  intro Hn. induction d as [|[k x] rest IH]; simpl.
  - now rewrite Hn.
  - destruct (key_eqb k key) eqn:E; simpl.
    + destruct (key_eqb k n) eqn:En; [|reflexivity].
      rewrite (key_eqb_left _ _ _ E En) in Hn. discriminate.
    + destruct (key_eqb k n); [reflexivity|exact IH].
Qed.

Lemma later_entries_keep later n :
  (forall e k v, In e later -> kept e = Some (k, v) -> key_eqb k n = false) ->
  forall d, dict_get (fold_left put later d) n = dict_get d n.
Proof.
  induction later as [|e rest IH]; intros H d; simpl; [reflexivity|].
  rewrite IH by (intros e' k v Hin; apply H; now right).
  unfold put. destruct (kept e) as [[k v]|] eqn:He; [|reflexivity].
  apply dict_get_set_other. apply (H e k v); [now left|exact He].
Qed.

(** C7: on a list of action objects, extraction gives the map collected
    from the entries of every ParametersAction, taken in order; the map
    holds only names and values that are not empty, the values as
    strings; and an entry that is kept gives its name its value, over any
    earlier entry of that name, until a later kept entry of that name. *)
Theorem extract_parameters_rule actions :
  (forallb wf_action actions = true ->
   _extract_parameters (JArr actions) = Ok (collect (all_entries actions)))
  /\ (forall entries k v,
         In (k, v) (collect entries) -> py_truth k = true /\ v <> "")
  /\ (forall earlier n x later,
         hashable n = true -> py_truth n = true -> py_truth x = true ->
         (forall e k v, In e later -> kept e = Some (k, v) ->
                        key_eqb k n = false) ->
         dict_get (collect (earlier ++ parameter n x :: later)%list) n
         = Some (py_str x))
  /\ _extract_parameters
       (JArr [parameters_action [parameter (JStr "ENV") (JStr "a")];
              parameters_action [parameter (JStr "ENV") (JStr "b")]])
     = Ok [(JStr "ENV", "b")].
Proof.
  split; [apply extract_parameters_collect|].
  split; [apply collect_not_empty|].
  split; [|reflexivity].
  intros earlier n x later Hh Hn Hx Hlater.
  unfold collect. rewrite fold_left_app. simpl.
  rewrite later_entries_keep by exact Hlater.
  unfold put at 1, kept, field. simpl. rewrite Hn, Hx. simpl.
  apply dict_get_set_same, Hh.
Qed.

Lemma extract_parameters_rule_witness :
  _extract_parameters
    (JArr [parameters_action [parameter (JStr "ENV") (JStr "a");
                              parameter (JStr "N") (JInt 3)];
           cause_action [];
           parameters_action [parameter (JStr "ENV") (JStr "b");
                              parameter (JStr "") (JStr "c")]])
  = Ok [(JStr "ENV", "b"); (JStr "N", "3")]
  /\ dict_get (collect ([parameter (JStr "ENV") (JStr "a");
                         parameter (JStr "N") (JInt 3)]
                        ++ parameter (JStr "ENV") (JStr "b")
                        :: [parameter (JStr "") (JStr "c")])%list)
              (JStr "ENV")
     = Some "b".
Proof.
  pose proof (extract_parameters_rule
                [parameters_action [parameter (JStr "ENV") (JStr "a");
                                    parameter (JStr "N") (JInt 3)];
                 cause_action [];
                 parameters_action [parameter (JStr "ENV") (JStr "b");
                                    parameter (JStr "") (JStr "c")]])
    as [Hcollect [_ [Hlast _]]].
  split; [apply Hcollect; reflexivity|].
  apply (Hlast [parameter (JStr "ENV") (JStr "a");
                parameter (JStr "N") (JInt 3)]
               (JStr "ENV") (JStr "b") [parameter (JStr "") (JStr "c")]);
    try reflexivity.
  intros e k v [<-|[]] Hkept. discriminate Hkept.
Defined.

Lemma add_parameter_falsy d em :
  py_truth (field em "value" (JStr "")) = false ->
  add_parameter d (JObj em) = Ok d.
Proof.
  intro H. unfold add_parameter. simpl. fold (field em "name" (JStr "")).
  fold (field em "value" (JStr "")). rewrite H, andb_false_r. reflexivity.
Qed.

Lemma kept_falsy em :
  py_truth (field em "value" (JStr "")) = false -> kept (JObj em) = None.
Proof. intro H. simpl. rewrite H, andb_false_r. reflexivity. Qed.

(** C10, counterexample: the list holds a parameter X whose value is
    false, and X is a key of the map all the same, set by the other
    parameter of that name. *)
Lemma falsy_parameter_name_is_a_key :
  _extract_parameters
    (JArr [parameters_action [parameter (JStr "X") (JBool false);
                              parameter (JStr "X") (JStr "1")]])
  = Ok [(JStr "X", "1")]
  /\ py_truth (JBool false) = false
  /\ dict_get [(JStr "X", "1")] (JStr "X") = Some "1".
Proof. repeat split. Qed.

Lemma wf_without_entry pre before entry after post :
  forallb wf_action
          (pre ++ parameters_action (before ++ entry :: after) :: post)%list
  = true ->
  forallb wf_action (pre ++ parameters_action (before ++ after) :: post)%list
  = true.
Proof.
  rewrite !forallb_app. cbn [forallb].
  intro H. apply andb_prop in H. destruct H as [Hpre H].
  apply andb_prop in H. destruct H as [Ha Hpost].
  rewrite Hpre, Hpost, andb_true_r. cbn [andb].
  change (forallb wf_entry (before ++ entry :: after)%list = true) in Ha.
  change (forallb wf_entry (before ++ after)%list = true).
  rewrite forallb_app in *. cbn [forallb] in Ha.
  apply andb_prop in Ha. destruct Ha as [Hb Ha].
  apply andb_prop in Ha. destruct Ha as [_ Ha].
  now rewrite Hb, Ha.
Qed.

(** C10, as amended: false, 0, null, the empty list, the empty dict and
    the empty string are all falsy; a parameter with a falsy value is
    dropped, that is, extraction gives what the list gives without it; so
    a name, its own too, is no key of the map unless another parameter of
    that name is kept. *)
Theorem falsy_parameter_adds_nothing pre before em after post :
  let actions :=
    (pre ++ parameters_action (before ++ JObj em :: after) :: post)%list in
  let others :=
    (pre ++ parameters_action (before ++ after) :: post)%list in
  map py_truth [JBool false; JInt 0; JNull; JArr []; JObj []; JStr ""]
  = [false; false; false; false; false; false]
  /\ (py_truth (field em "value" (JStr "")) = false ->
      _extract_parameters (JArr actions) = _extract_parameters (JArr others))
  /\ (py_truth (field em "value" (JStr "")) = false ->
      forallb wf_action actions = true ->
      forall n,
        (forall e k v, In e (all_entries others) -> kept e = Some (k, v) ->
                       key_eqb k n = false) ->
        exists d, _extract_parameters (JArr actions) = Ok d
                  /\ dict_get d n = None).
Proof.
  intros actions others.
  assert (Hsame : py_truth (field em "value" (JStr "")) = false ->
                  _extract_parameters (JArr actions)
                  = _extract_parameters (JArr others)).
  { intro H. unfold _extract_parameters, actions, others. simpl.
    rewrite !for_each_app.
    destruct (for_each add_parameters_of pre []) as [d|e];
      simpl; [|reflexivity].
    assert (Ha : add_parameters_of d
                   (parameters_action (before ++ JObj em :: after)%list)
                 = add_parameters_of d (parameters_action (before ++ after)%list)).
    { unfold add_parameters_of, parameters_action. simpl.
      rewrite !for_each_app.
      destruct (for_each add_parameter before d) as [d'|e]; simpl;
        [|reflexivity].
      rewrite add_parameter_falsy by exact H. reflexivity. }
    rewrite Ha. reflexivity. }
  split; [reflexivity|]. split; [exact Hsame|].
  intros H Hwf n Hothers.
  exists (collect (all_entries others)). split.
  - rewrite (Hsame H). apply extract_parameters_collect.
    apply (wf_without_entry _ _ _ _ _ Hwf).
  - unfold collect. rewrite later_entries_keep by exact Hothers. reflexivity.
Qed.

Lemma falsy_parameter_adds_nothing_witness :
  (_extract_parameters
     (JArr ([cause_action []]
            ++ parameters_action
                 ([parameter (JStr "ENV") (JStr "a")]
                  ++ JObj [("name", JStr "DEBUG"); ("value", JBool false)]
                  :: [parameter (JStr "N") (JInt 3)])%list
            :: [parameters_action [parameter (JStr "ENV") (JStr "b")]])%list)
   = _extract_parameters
       (JArr ([cause_action []]
              ++ parameters_action
                   ([parameter (JStr "ENV") (JStr "a")]
                    ++ [parameter (JStr "N") (JInt 3)])%list
              :: [parameters_action [parameter (JStr "ENV") (JStr "b")]])%list))
  /\ exists d,
      _extract_parameters
        (JArr ([cause_action []]
               ++ parameters_action
                    ([parameter (JStr "ENV") (JStr "a")]
                     ++ JObj [("name", JStr "DEBUG"); ("value", JBool false)]
                     :: [parameter (JStr "N") (JInt 3)])%list
               :: [parameters_action [parameter (JStr "ENV") (JStr "b")]])%list)
      = Ok d
      /\ dict_get d (JStr "DEBUG") = None.
Proof.
  pose proof (falsy_parameter_adds_nothing
                [cause_action []]
                [parameter (JStr "ENV") (JStr "a")]
                [("name", JStr "DEBUG"); ("value", JBool false)]
                [parameter (JStr "N") (JInt 3)]
                [parameters_action [parameter (JStr "ENV") (JStr "b")]])
    as [_ [Hsame Hkey]].
  split; [apply Hsame; reflexivity|].
  apply Hkey; [reflexivity|reflexivity|].
  intros e k v Hin Hkept. simpl in Hin.
  destruct Hin as [<-|[<-|[<-|[]]]]; simpl in Hkept;
    inversion Hkept; reflexivity.
Defined.

(** ** Build details and the history loop *)

Section HistoryFacts.

Variable server : nat -> string -> response.
Variable local_time : Z -> py string.

Lemma display_build_details_step job_path n w :
  _display_build_details server local_time job_path n w
  = match server (requests w) (detail_url job_path n) with
    | Body v =>
        (Returns tt,
         World (S (requests w)) (printed w ++ [detail_line local_time n v])%list)
    | RequestFailed =>
        (Exits 1,
         World (S (requests w))
               (printed w ++ [RequestError (detail_url job_path n)])%list)
    | PlainValueError =>
        (Exits 1, World (S (requests w)) (printed w ++ [JsonError])%list)
    | Crashed e =>
        (Returns tt,
         World (S (requests w)) (printed w ++ [BuildError (py_str n) e])%list)
    end.
Proof.
  unfold _display_build_details, try_except, io_bind, get, detail_url,
    detail_line, lift, print, sys_exit.
  destruct (server _ _); simpl; try reflexivity.
  destruct (build_row _ _ _); reflexivity.
Qed.

Lemma for_io_app {A : Type} (body : A -> io unit) xs ys w :
  for_io body (xs ++ ys)%list w
  = match for_io body xs w with
    | (Returns _, w') => for_io body ys w'
    | (Raises e, w') => (Raises e, w')
    | (Exits code, w') => (Exits code, w')
    end.
Proof.
  revert w. induction xs as [|x rest IH]; intro w; simpl; [reflexivity|].
  unfold io_bind. destruct (body x w) as [[u|e|code] w']; auto.
Qed.

Lemma show_builds_app job_path xs ys w :
  show_builds server local_time job_path (xs ++ ys)%list w
  = match show_builds server local_time job_path xs w with
    | (Returns _, w') => show_builds server local_time job_path ys w'
    | (Raises e, w') => (Raises e, w')
    | (Exits code, w') => (Exits code, w')
    end.
Proof. unfold show_builds. apply for_io_app. Qed.

Lemma show_builds_cons job_path m rest w :
  show_builds server local_time job_path (JObj m :: rest) w
  = match _display_build_details server local_time job_path
            (number_of (JObj m)) w with
    | (Returns _, w') => show_builds server local_time job_path rest w'
    | (Raises e, w') => (Raises e, w')
    | (Exits code, w') => (Exits code, w')
    end.
Proof.
  unfold show_builds. simpl. unfold io_bind, lift. simpl.
  fold (field m "number" JNull).
  destruct (_display_build_details _ _ _ _ w) as [[u|e|code] w']; reflexivity.
Qed.

Lemma show_builds_answered job_path shown :
  forall w,
    forallb is_object shown = true ->
    (forall k url, (requests w <= k < requests w + List.length shown)%nat ->
                   exists v, server k url = Body v) ->
    exists lines,
      show_builds server local_time job_path shown w
      = (Returns tt,
         World (requests w + List.length shown) (printed w ++ lines)%list)
      /\ Forall2 (logged server local_time job_path) shown lines.
Proof.
  induction shown as [|b rest IH]; intros w Hobj Hserver.
  - exists []. split; [|constructor].
    unfold show_builds. simpl. unfold io_ret.
    rewrite Nat.add_0_r, app_nil_r. destruct w; reflexivity.
  - simpl in Hobj. apply andb_prop in Hobj. destruct Hobj as [Hb Hrest].
    destruct b as [| | | |?|m]; try discriminate. clear Hb.
    rewrite show_builds_cons, display_build_details_step.
    destruct (Hserver (requests w) (detail_url job_path (number_of (JObj m))))
      as [v Hv]; [simpl; lia|].
    rewrite Hv.
    destruct (IH (World (S (requests w))
                        (printed w ++ [detail_line local_time
                                         (number_of (JObj m)) v])%list)
                 Hrest) as [lines [Hrun Hlines]].
    { intros k url Hk. apply Hserver. simpl in *. lia. }
    exists (detail_line local_time (number_of (JObj m)) v :: lines).
    split.
    + rewrite Hrun. simpl. rewrite <- app_assoc. simpl.
      repeat f_equal. lia.
    + constructor; [|exact Hlines].
      exists (requests w), v. split; [exact Hv|reflexivity].
Qed.

Lemma job_history_listed job_path job_data b0 builds :
  server 0 (base_url ++ job_history_endpoint job_path) = Body job_data ->
  py_get job_data "builds" (JArr []) = Ok (JArr (b0 :: builds)) ->
  run server local_time (JobHistory job_path)
  = let p := Str.strip_slash job_path in
    match show_builds server local_time p (firstn 20 (b0 :: builds))
            (World 1 (history_title p :: history_header)) with
    | (Returns _, w) =>
        (Returns tt,
         (printed w ++ more_builds_notice (List.length (b0 :: builds)))%list)
    | (Raises e, w) => (Exits 1, (printed w ++ [HistoryError p e])%list)
    | (Exits code, w) => (Exits code, printed w)
    end.
Proof.
  intros Hserver Hbuilds.
  unfold run, main, job_history, try_except, io_bind, get.
  cbn [requests printed]. rewrite Hserver. unfold lift at 1.
  rewrite Hbuilds.
  cbn -[firstn show_builds Str.strip_slash history_header Nat.ltb Nat.sub
        str_of_nat newline append List.length].
  unfold print at 1.
  cbn -[firstn show_builds Str.strip_slash Nat.ltb Nat.sub str_of_nat newline
        append List.length].
  fold (history_title (Str.strip_slash job_path)).
  destruct (show_builds _ _ _ _ _) as [[u|e|code] w]; try reflexivity.
  unfold more_builds_notice.
  destruct (_ <? _)%nat; cbn -[Nat.sub str_of_nat newline append List.length];
    [reflexivity|].
  rewrite app_nil_r. reflexivity.
Qed.

(** C2: what the program does where the claim asks for recovery.  In a
    history whose listing is answered, every build of the window whose
    request is answered leaves one line, its row or, when making the row
    raises, the error line with its number, and the loop goes on to the
    next build: with all requests answered the run returns after one
    such line for each build shown.  But a request for a build that
    fails is not caught by the handler around it: the run ends there
    with exit status 1, after the lines of the builds before it and the
    error line of the client, with no line for that build and none for
    the builds after it. *)
Theorem history_recovers_from_build_errors job_path job_data builds pre post :
  server 0 (base_url ++ job_history_endpoint job_path) = Body job_data ->
  py_get job_data "builds" (JArr []) = Ok (JArr builds) ->
  builds <> [] ->
  firstn 20 builds = (pre ++ post)%list ->
  forallb is_object pre = true ->
  (forall k url, (1 <= k <= List.length pre)%nat ->
                 exists v, server k url = Body v) ->
  let p := Str.strip_slash job_path in
  let command := JobHistory job_path in
  exists lines,
    Forall2 (logged server local_time p) pre lines
    /\ (post = [] ->
        run server local_time command
        = (Returns tt,
           (history_title p :: history_header ++ lines
              ++ more_builds_notice (List.length builds))%list))
    /\ (forall m rest,
           post = JObj m :: rest ->
           let url := detail_url p (number_of (JObj m)) in
           server (S (List.length pre)) url = RequestFailed ->
           run server local_time command
           = (Exits 1,
              (history_title p :: history_header ++ lines
                 ++ [RequestError url])%list)).
Proof.
  intros Hserver Hbuilds Hne Hwindow Hobj Hanswered p command.
  destruct builds as [|b0 bs]; [congruence|].
  destruct (show_builds_answered p pre
              (World 1 (history_title p :: history_header)) Hobj)
    as [lines [Hpre Hlines]].
  { intros k url Hk. apply Hanswered. simpl in Hk. lia. }
  exists lines. split; [exact Hlines|].
  assert (Hrun := job_history_listed job_path job_data b0 bs Hserver Hbuilds).
  cbv zeta in Hrun. fold p in Hrun. rewrite Hwindow, show_builds_app, Hpre in Hrun.
  cbn [requests printed] in Hrun.
  split.
  - intros ->. unfold command. rewrite Hrun. reflexivity.
  - intros m rest -> url.
    rewrite show_builds_cons, display_build_details_step in Hrun.
    cbn [requests printed Nat.add] in Hrun. fold url in Hrun.
    intro Hfail. unfold command. rewrite Hrun, Hfail.
    cbn [printed]. rewrite <- app_assoc. reflexivity.
Qed.

End HistoryFacts.

(** C2, at the failing input: the listing holds the builds 2 and 1 and
    the request for build 2 fails; the run ends with exit status 1, with
    no line for build 2 and without going on to build 1. *)
Lemma failed_build_request_ends_run :
  run failing_server sample_time (JobHistory "dev/app")
  = (Exits 1,
     (history_title "dev/app" :: history_header
        ++ [RequestError "http://localhost:8080/job/dev/job/app/2/api/json"])%list).
Proof. reflexivity. Qed.

Example answered_history :
  run answering_server sample_time (JobHistory "/dev/app/")
  = (Returns tt,
     (history_title "dev/app" :: history_header
        ++ [BuildError "2" TypeError;
            Text (Str.ljust "1" 8 ++ " " ++ Str.ljust "SUCCESS" 12 ++ " "
                  ++ Str.ljust "alice" 20 ++ " "
                  ++ Str.ljust "2023-11-14 22:13:20" 20 ++ " "
                  ++ Str.ljust "ENV=prod" 30)])%list).
Proof. reflexivity. Qed.

(** An exception that leaves [get] for build 2 is caught by the handler
    around it: the build gets its error line and build 1 is shown. *)
Example uncaught_fetch_error_is_skipped :
  run crashing_server sample_time (JobHistory "/dev/app/")
  = (Returns tt,
     (history_title "dev/app" :: history_header
        ++ [BuildError "2" RecursionError;
            Text (Str.ljust "1" 8 ++ " " ++ Str.ljust "SUCCESS" 12 ++ " "
                  ++ Str.ljust "alice" 20 ++ " "
                  ++ Str.ljust "2023-11-14 22:13:20" 20 ++ " "
                  ++ Str.ljust "ENV=prod" 30)])%list).
Proof. reflexivity. Qed.

Lemma history_recovers_from_build_errors_witness :
  (exists lines,
      Forall2 (logged answering_server sample_time "dev/app")
              [JObj [("number", JInt 2)]; JObj [("number", JInt 1)]] lines
      /\ run answering_server sample_time (JobHistory "/dev/app/")
         = (Returns tt,
            (history_title "dev/app" :: history_header ++ lines)%list))
  /\ run failing_server sample_time (JobHistory "/dev/app/")
     = (Exits 1,
        (history_title "dev/app" :: history_header
           ++ [RequestError (detail_url "dev/app" (JInt 2))])%list).
Proof.
  split.
  - destruct (history_recovers_from_build_errors
                answering_server sample_time "/dev/app/" sample_listing
                [JObj [("number", JInt 2)]; JObj [("number", JInt 1)]]
                [JObj [("number", JInt 2)]; JObj [("number", JInt 1)]] [])
      as [lines [Hlines [Hrun _]]];
      try reflexivity; try discriminate.
    + intros k url Hk. destruct k as [|[|k]]; [simpl in Hk; lia| |];
        eexists; reflexivity.
    + exists lines. split; [exact Hlines|].
      rewrite (Hrun eq_refl). simpl. rewrite app_nil_r. reflexivity.
  - assert (Hnone : forall k url, (1 <= k <= 0)%nat ->
                                 exists v, failing_server k url = Body v)
      by (intros k url Hk; lia).
    assert (Hne : [JObj [("number", JInt 2)]; JObj [("number", JInt 1)]]
                  <> []) by discriminate.
    destruct (history_recovers_from_build_errors
                failing_server sample_time "/dev/app/" sample_listing
                [JObj [("number", JInt 2)]; JObj [("number", JInt 1)]]
                [] [JObj [("number", JInt 2)]; JObj [("number", JInt 1)]]
                eq_refl eq_refl Hne eq_refl eq_refl Hnone)
      as [lines [Hlines [_ Hfail]]].
    inversion Hlines; subst.
    apply (Hfail [("number", JInt 2)] [JObj [("number", JInt 1)]] eq_refl).
    reflexivity.
Defined.

(** C3: a build whose result is null gets no row, whatever else the
    answer holds: formatting the null raises, and what is printed for
    the running build is the error line.  Only when the key is absent
    does the row show "UNKNOWN"; a null or absent timestamp is shown as
    "Unknown". *)
Theorem null_result_is_not_rendered :
  (forall local_time n members,
      exists e,
        build_row local_time n (JObj (("result", JNull) :: members)) = Raise e)
  /\ detail_line sample_time (JInt 7) running_build = BuildError "7" TypeError
  /\ (forall local_time,
         build_row local_time (JInt 7) (JObj [("timestamp", JNull)])
         = Ok (Str.ljust "7" 8 ++ " " ++ Str.ljust "UNKNOWN" 12 ++ " "
               ++ Str.ljust "Unknown" 20 ++ " " ++ Str.ljust "Unknown" 20
               ++ " " ++ Str.ljust "None" 30))
  /\ (forall local_time,
         build_row local_time (JInt 7) (JObj [])
         = Ok (Str.ljust "7" 8 ++ " " ++ Str.ljust "UNKNOWN" 12 ++ " "
               ++ Str.ljust "Unknown" 20 ++ " " ++ Str.ljust "Unknown" 20
               ++ " " ++ Str.ljust "None" 30)).
Proof.
  split; [|split; [reflexivity|split; reflexivity]].
  intros local_time n members. unfold build_row.
  change (py_get (JObj (("result", JNull) :: members)) "result" (JStr "UNKNOWN"))
    with (@Ok json JNull).
  cbn [py_bind].
  destruct (py_get _ "timestamp" _) as [ts|e]; cbn [py_bind]; [|eauto].
  destruct (py_get _ "duration" _) as [du|e]; cbn [py_bind]; [|eauto].
  destruct (py_get _ "actions" _) as [ac|e]; cbn [py_bind]; [|eauto].
  destruct (_extract_trigger_info _) as [t|e]; cbn [py_bind]; [|eauto].
  destruct (_extract_parameters _) as [d|e]; cbn [py_bind]; [|eauto].
  destruct (format_timestamp _ _) as [bt|e]; cbn [py_bind]; [|eauto].
  destruct (py_format_ljust n 8) as [c1|e]; cbn [py_bind]; [|eauto].
  simpl. eauto.
Qed.

(** ** What every command keeps *)

Lemma behaves_weaken {A : Type} (m : io A) n n' raises raises' post post' :
  behaves m n raises post ->
  (n <= n')%nat -> (raises = true -> raises' = true) ->
  (forall a, post a -> post' a) ->
  behaves m n' raises' post'.
Proof.
  intros H Hn Hr Hp w. specialize (H w). destruct (m w) as [r w'].
  destruct H as [Hout [Hreq Hend]]. split; [exact Hout|]. split; [lia|].
  destruct r; auto.
Qed.

Lemma behaves_ret {A : Type} (a : A) (post : A -> Prop) raises :
  post a -> behaves (io_ret a) 0 raises post.
Proof.
  intros H w. simpl. split; [exists []; now rewrite app_nil_r|].
  split; [lia|exact H].
Qed.

Lemma behaves_lift {A : Type} (m : py A) :
  behaves (lift m) 0 true (fun a => m = Ok a).
Proof.
  intros w. unfold lift. destruct m; simpl;
    (split; [exists []; now rewrite app_nil_r|]); (split; [lia|reflexivity]).
Qed.

Lemma behaves_print l raises : behaves (print l) 0 raises anything.
Proof.
  intros w. simpl. split; [now exists [l]|]. split; [lia|exact I].
Qed.

Lemma behaves_exit {A : Type} raises (post : A -> Prop) :
  behaves (sys_exit 1) 0 raises post.
Proof.
  intros w. simpl. split; [exists []; now rewrite app_nil_r|].
  split; [lia|reflexivity].
Qed.

Lemma behaves_bind {A B : Type} (m : io A) (k : A -> io B) n1 n2 raises
  (mid : A -> Prop) (post : B -> Prop) :
  behaves m n1 raises mid ->
  (forall a, mid a -> behaves (k a) n2 raises post) ->
  behaves (io_bind m k) (n1 + n2) raises post.
Proof.
  intros Hm Hk w. unfold io_bind. specialize (Hm w).
  destruct (m w) as [[a|e|code] w1]; destruct Hm as [[l1 Hout] [Hreq Hend]].
  - specialize (Hk a Hend w1). destruct (k a w1) as [r w2].
    destruct Hk as [[l2 Hout2] [Hreq2 Hend2]].
    split; [exists (l1 ++ l2)%list; now rewrite Hout2, Hout, app_assoc|].
    split; [lia|exact Hend2].
  - split; [now exists l1|]. split; [lia|exact Hend].
  - split; [now exists l1|]. split; [lia|exact Hend].
Qed.

Lemma behaves_try {A : Type} (body : io A) (handler : exn -> io A) n1 n2
  raises raises' (post : A -> Prop) :
  behaves body n1 raises post ->
  (forall e, behaves (handler e) n2 raises' post) ->
  behaves (try_except body handler) (n1 + n2) raises' post.
Proof.
  intros Hb Hh w. unfold try_except. specialize (Hb w).
  destruct (body w) as [[a|e|code] w1]; destruct Hb as [[l1 Hout] [Hreq Hend]].
  - split; [now exists l1|]. split; [lia|exact Hend].
  - specialize (Hh e w1). destruct (handler e w1) as [r w2].
    destruct Hh as [[l2 Hout2] [Hreq2 Hend2]].
    split; [exists (l1 ++ l2)%list; now rewrite Hout2, Hout, app_assoc|].
    split; [lia|exact Hend2].
  - split; [now exists l1|]. split; [lia|exact Hend].
Qed.

Lemma behaves_seq {A B : Type} (m : io A) (k : A -> io B) n1 n2 n raises
  (mid : A -> Prop) (post : B -> Prop) :
  (n1 + n2 <= n)%nat ->
  behaves m n1 raises mid ->
  (forall a, mid a -> behaves (k a) n2 raises post) ->
  behaves (io_bind m k) n raises post.
Proof.
  intros Hn Hm Hk.
  apply behaves_weaken with (n := (n1 + n2)%nat) (raises := raises)
                            (post := post); auto.
  eapply behaves_bind; eassumption.
Qed.

Lemma behaves_pure {A B : Type} (m : py A) (k : A -> io B) n raises
  (post : B -> Prop) :
  raises = true ->
  (forall a, m = Ok a -> behaves (k a) n raises post) ->
  behaves (io_bind (lift m) k) n raises post.
Proof.
  intros -> Hk.
  apply behaves_seq with (n1 := 0%nat) (n2 := n) (mid := fun a => m = Ok a);
    [lia|apply behaves_lift|exact Hk].
Qed.

Lemma behaves_then_print {B : Type} l (k : unit -> io B) n raises
  (post : B -> Prop) :
  behaves (k tt) n raises post ->
  behaves (io_bind (print l) k) n raises post.
Proof.
  intro Hk.
  apply behaves_seq with (n1 := 0%nat) (n2 := n) (mid := anything);
    [lia|apply behaves_print|]. intros [] _. exact Hk.
Qed.

Lemma behaves_for {A : Type} (body : A -> io unit) xs n raises :
  (forall x, In x xs -> behaves (body x) n raises anything) ->
  behaves (for_io body xs) (List.length xs * n) raises anything.
Proof.
  induction xs as [|x rest IH]; intro H; simpl.
  - apply behaves_ret. exact I.
  - replace (n + List.length rest * n)%nat with (n + List.length rest * n)%nat
      by reflexivity.
    apply behaves_bind with (mid := anything).
    + apply H. now left.
    + intros _ _. apply IH. intros y Hy. apply H. now right.
Qed.

Section CommandFacts.

Variable server : nat -> string -> response.
Variable local_time : Z -> py string.

Lemma behaves_get endpoint :
  behaves (get server endpoint) 1 true anything.
Proof.
  intros w. unfold get.
  destruct (server _ _); simpl;
    (split; [eexists; try reflexivity; now rewrite app_nil_r|]);
    (split; [lia|reflexivity || exact I]).
Qed.

Lemma behaves_display job_path n raises :
  behaves (_display_build_details server local_time job_path n) 1 raises
          anything.
Proof.
  unfold _display_build_details.
  apply behaves_weaken with (n := (1 + 0)%nat) (raises := raises)
                            (post := anything); auto.
  apply behaves_try with (raises := true).
  - apply behaves_seq with (n1 := 1%nat) (n2 := 0%nat) (mid := anything);
      [lia|apply behaves_get|].
    intros v _. apply behaves_pure; [reflexivity|].
    intros row _. apply behaves_print.
  - intro e. apply behaves_print.
Qed.

Lemma behaves_show_builds job_path shown :
  behaves (show_builds server local_time job_path shown)
          (List.length shown) true anything.
Proof.
  unfold show_builds.
  replace (List.length shown) with (List.length shown * 1)%nat by lia.
  apply behaves_for. intros build _.
  apply behaves_pure; [reflexivity|].
  intros n _. apply behaves_display.
Qed.

Lemma window_length builds window shown :
  py_slice20 builds = Ok window -> py_iter window = Ok shown ->
  (List.length shown <= 20)%nat.
Proof.
  intros H H'.
  destruct builds as [| | |s|items|]; unfold py_slice20 in H;
    try discriminate H.
  - assert (E : JStr (Str.take 20 s) = window) by congruence.
    rewrite <- E in H'. unfold py_iter in H'.
    assert (E' : map JStr (Str.chars (Str.take 20 s)) = shown) by congruence.
    rewrite <- E', length_map.
    assert (Hc : forall t, List.length (Str.chars t) = String.length t)
      by (induction t; simpl; congruence).
    rewrite Hc. unfold Str.take.
    assert (Ht : forall n t, (String.length (substring 0 n t) <= n)%nat).
    { induction n; intros [|c t]; simpl; try lia. specialize (IHn t). lia. }
    apply Ht.
  - assert (E : JArr (firstn 20 items) = window) by congruence.
    rewrite <- E in H'. unfold py_iter in H'.
    assert (E' : firstn 20 items = shown) by congruence.
    rewrite <- E'. apply firstn_le_length.
Qed.

Lemma behaves_job_history job_path :
  behaves (job_history server local_time job_path) 21 false anything.
Proof.
  unfold job_history.
  apply behaves_weaken with (n := (21 + 0)%nat) (raises := false)
                            (post := anything); auto.
  apply behaves_try with (raises := true).
  - apply behaves_seq with (n1 := 1%nat) (n2 := 20%nat) (mid := anything);
      [lia|apply behaves_get|].
    intros job_data _. apply behaves_pure; [reflexivity|].
    intros builds _.
    destruct (negb (py_truth builds)).
    { apply behaves_weaken with (n := 0%nat) (raises := true)
                                (post := anything);
        [apply behaves_print|lia|auto|auto]. }
    apply behaves_then_print.
    apply behaves_seq with (n1 := 0%nat) (n2 := 20%nat) (mid := anything);
      [lia| |].
    { apply behaves_weaken with (n := (3 * 0)%nat) (raises := true)
                                (post := anything); auto.
      apply behaves_for. intros l _. apply behaves_print. }
    intros _ _. apply behaves_pure; [reflexivity|].
    intros window Hwindow. apply behaves_pure; [reflexivity|].
    intros shown Hshown.
    apply behaves_seq with (n1 := 20%nat) (n2 := 0%nat) (mid := anything);
      [lia| |].
    { apply behaves_weaken with (n := List.length shown) (raises := true)
                                (post := anything);
        [apply behaves_show_builds| |auto|auto].
      eapply window_length; eassumption. }
    intros _ _. apply behaves_pure; [reflexivity|].
    intros n _.
    destruct (20 <? n)%nat; [apply behaves_print|apply behaves_ret; exact I].
  - intro e. apply behaves_then_print. apply behaves_exit.
Qed.

Lemma behaves_list_jobs workspace :
  behaves (list_jobs server workspace) 1 false anything.
Proof.
  unfold list_jobs.
  apply behaves_weaken with (n := (1 + 0)%nat) (raises := false)
                            (post := anything); auto.
  apply behaves_try with (raises := true).
  - apply behaves_seq with (n1 := 1%nat) (n2 := 0%nat) (mid := anything);
      [lia|apply behaves_get|].
    intros data _. apply behaves_pure; [reflexivity|].
    intros jobs _.
    destruct (negb (py_truth jobs)); [apply behaves_print|].
    apply behaves_then_print.
    apply behaves_seq with (n1 := 0%nat) (n2 := 0%nat) (mid := anything);
      [lia| |].
    { apply behaves_weaken with (n := (3 * 0)%nat) (raises := true)
                                (post := anything); auto.
      apply behaves_for. intros l _. apply behaves_print. }
    intros _ _. apply behaves_pure; [reflexivity|].
    intros items _.
    apply behaves_seq with (n1 := 0%nat) (n2 := 0%nat) (mid := anything);
      [lia| |].
    { apply behaves_weaken with (n := (List.length items * 0)%nat)
                                (raises := true) (post := anything);
        auto; [|lia].
      apply behaves_for. intros job _.
      repeat (apply behaves_pure; [reflexivity|]; intros ? _).
      apply behaves_print. }
    intros _ _. apply behaves_pure; [reflexivity|].
    intros n _. apply behaves_print.
  - intro e. apply behaves_then_print. apply behaves_exit.
Qed.

Lemma behaves_dispatch c :
  behaves (dispatch server local_time c) 21 false anything.
Proof.
  destruct c as [workspace|job_path]; simpl.
  - apply behaves_weaken with (n := 1%nat) (raises := false)
                              (post := anything);
      [apply behaves_list_jobs|lia|auto|auto].
  - apply behaves_job_history.
Qed.

Lemma main_ends c w :
  main server local_time c w = dispatch server local_time c w
  /\ (fst (dispatch server local_time c w) = Returns tt
      \/ fst (dispatch server local_time c w) = Exits 1).
Proof.
  assert (H := behaves_dispatch c w).
  unfold main, try_except. fold (dispatch server local_time c).
  destruct (dispatch server local_time c w) as [[[]|e|code] w'];
    destruct H as [_ [_ H]]; simpl.
  - auto.
  - discriminate H.
  - subst code. auto.
Qed.

(** X2: a command only adds lines to what is printed and never sends
    more than 21 requests, the listing and the 20 builds of the window;
    list-jobs never sends more than one. *)
Theorem requests_are_bounded c w :
  let w' := snd (main server local_time c w) in
  (exists added, printed w' = (printed w ++ added)%list)
  /\ (requests w <= requests w')%nat
  /\ (requests w' <= requests w + match c with
                                   | ListJobs _ => 1
                                   | JobHistory _ => 21
                                   end)%nat.
Proof.
  cbv zeta. rewrite (proj1 (main_ends c w)).
  destruct c as [workspace|job_path]; simpl.
  - assert (H := behaves_list_jobs workspace w).
    destruct (list_jobs server workspace w) as [r w'].
    destruct H as [Hout [Hreq _]]. simpl. split; [exact Hout|lia].
  - assert (H := behaves_job_history job_path w).
    destruct (job_history server local_time job_path w) as [r w'].
    destruct H as [Hout [Hreq _]]. simpl. split; [exact Hout|lia].
Qed.

(** X3: when the first request of a command raises a
    [RequestException] (no connection, a timeout, a refused status or,
    with requests 2.27 or later, an answer that is no JSON), the run
    prints the request-error line of the client with the address, and
    nothing else, sends no further request and exits with status 1. *)
Theorem first_request_failure_ends_run c :
  let url := base_url ++ first_endpoint c in
  server 0 url = RequestFailed ->
  main server local_time c (World 0 [])
  = (Exits 1, World 1 [RequestError url])
  /\ run server local_time c = (Exits 1, [RequestError url]).
Proof.
  cbv zeta. unfold run. intro H.
  assert (Hmain : main server local_time c (World 0 [])
                  = (Exits 1,
                     World 1 [RequestError (base_url ++ first_endpoint c)])).
  { destruct c as [workspace|job_path];
      unfold main, list_jobs, job_history, try_except, io_bind, get;
      cbn [requests printed first_endpoint] in *; rewrite H; reflexivity. }
  rewrite Hmain. split; reflexivity.
Qed.

(** X4: when the answer to the first request is no JSON object, the
    command cannot read its list: the run prints the error line of the
    command and exits with status 1. *)
Theorem answer_must_be_an_object c v :
  server 0 (base_url ++ first_endpoint c) = Body v ->
  is_object v = false ->
  run server local_time c = (Exits 1, [command_error c AttributeError]).
Proof.
  intros H Hv. unfold run.
  destruct c as [workspace|job_path];
    unfold main, list_jobs, job_history, try_except, io_bind, get;
    cbn [requests printed first_endpoint] in *; rewrite H;
    destruct v; try discriminate Hv; reflexivity.
Qed.

(** X5: when the answer holds no list to show (the key is absent, or its
    value is null, empty or otherwise falsy), the run prints the one line
    that says so and returns; no table follows and no further request is
    sent. *)
Theorem nothing_to_show c members :
  server 0 (base_url ++ first_endpoint c) = Body (JObj members) ->
  py_truth (field members (list_key c) (JArr [])) = false ->
  main server local_time c (World 0 [])
  = (Returns tt, World 1 [nothing_found c]).
Proof.
  intros H Hfalsy.
  destruct c as [workspace|job_path];
    unfold main, list_jobs, job_history, try_except, io_bind, get;
    cbn [requests printed first_endpoint list_key] in *; rewrite H;
    [change (py_get (JObj members) "jobs" (JArr []))
       with (Ok (field members "jobs" (JArr [])))
    |change (py_get (JObj members) "builds" (JArr []))
       with (Ok (field members "builds" (JArr [])))];
    unfold lift; cbv beta iota; rewrite Hfalsy; reflexivity.
Qed.

Lemma list_jobs_rows jobs rows :
  Forall2 job_shows jobs rows ->
  forall w,
    for_io (fun job =>
              name <- lift (py_get job "name" (JStr "Unknown")) ;;
              color <- lift (py_get job "color" (JStr "unknown")) ;;
              status <- lift (_color_to_status color) ;;
              col1 <- lift (py_format_ljust name 40) ;;
              print (Text (col1 ++ " " ++ Str.ljust status 15)))%io jobs w
    = (Returns tt,
       World (requests w) (printed w ++ map job_line rows)%list).
Proof.
  induction 1 as [|job shown jobs rows [m [-> [Hname Hcolor]]] _ IH];
    intro w; cbn [for_io map].
  - unfold io_ret. rewrite app_nil_r. destruct w; reflexivity.
  - unfold io_bind at 1. unfold io_bind at 1, lift at 1.
    change (py_get (JObj m) "name" (JStr "Unknown"))
      with (Ok (field m "name" (JStr "Unknown"))).
    rewrite Hname. cbv beta iota.
    unfold io_bind at 1, lift at 1.
    change (py_get (JObj m) "color" (JStr "unknown"))
      with (Ok (field m "color" (JStr "unknown"))).
    rewrite Hcolor. cbv beta iota.
    unfold io_bind at 1, lift at 1, _color_to_status. cbv beta iota.
    unfold io_bind at 1, lift at 1, py_format_ljust. cbv beta iota.
    unfold print at 1. rewrite IH. cbn [requests printed].
    rewrite <- app_assoc. reflexivity.
Qed.

(** X6: for a folder whose jobs are objects with a name and a colour
    that are strings, list-jobs prints the title, the header, one row
    for each job of the answer, in order and without a limit, with the
    name in 40 columns and the status of its colour in 15, and the
    number of jobs; then it returns. *)
Theorem list_jobs_table workspace members jobs rows :
  server 0 (base_url ++ list_jobs_endpoint workspace) = Body (JObj members) ->
  lookup "jobs" members = Some (JArr jobs) ->
  jobs <> [] ->
  Forall2 job_shows jobs rows ->
  run server local_time (ListJobs workspace)
  = (Returns tt,
     (jobs_title (Str.strip_slash workspace) :: jobs_header
        ++ map job_line rows ++ [jobs_total (List.length jobs)])%list).
Proof.
  intros Hserver Hjobs Hne Hrows.
  unfold run, main, list_jobs, try_except.
  unfold io_bind at 1, get. cbn [requests printed]. rewrite Hserver.
  unfold io_bind at 1, lift at 1, py_get. rewrite Hjobs.
  destruct jobs as [|j0 js]; [congruence|].
  cbn [py_truth negb].
  unfold io_bind at 1, print at 1. cbn [requests printed app].
  unfold io_bind at 1. cbn [jobs_header for_io].
  unfold io_bind at 1 2 3, print at 1 2 3, io_ret. cbn [requests printed app].
  unfold io_bind at 1, lift at 1, py_iter.
  unfold io_bind at 1. rewrite (list_jobs_rows _ _ Hrows).
  unfold io_bind at 1, lift at 1, py_len. unfold print.
  cbn [requests printed]. unfold jobs_title, jobs_total.
  rewrite <- app_assoc. reflexivity.
Qed.



End CommandFacts.

Lemma first_request_failure_ends_run_witness :
  run down_server sample_time (JobHistory "/dev/app/")
  = (Exits 1,
     [RequestError
        "http://localhost:8080/job/dev/job/app/api/json?tree=builds[number,url]"])
  /\ run down_server sample_time (ListJobs "dev")
     = (Exits 1,
        [RequestError
           "http://localhost:8080/job/dev/api/json?tree=jobs[name,url,color]"]).
Proof.
  split.
  - apply (proj2 (first_request_failure_ends_run
                    down_server sample_time (JobHistory "/dev/app/") eq_refl)).
  - apply (proj2 (first_request_failure_ends_run
                    down_server sample_time (ListJobs "dev") eq_refl)).
Defined.

Lemma answer_must_be_an_object_witness :
  run (constant_server (JArr [])) sample_time (ListJobs "dev")
  = (Exits 1, [JobsError "dev" AttributeError]).
Proof.
  apply (answer_must_be_an_object
           (constant_server (JArr [])) sample_time (ListJobs "dev") (JArr []));
    reflexivity.
Defined.

Lemma nothing_to_show_witness :
  main (constant_server (JObj [("builds", JNull)])) sample_time
       (JobHistory "dev/app") (World 0 [])
  = (Returns tt,
     World 1 [Text "No build history found for job: dev/app"]).
Proof.
  apply (nothing_to_show
           (constant_server (JObj [("builds", JNull)])) sample_time
           (JobHistory "dev/app") [("builds", JNull)]);
    reflexivity.
Defined.

Lemma list_jobs_table_witness :
  run (constant_server sample_jobs) sample_time (ListJobs "/dev/")
  = (Returns tt,
     (jobs_title "dev" :: jobs_header
        ++ [Text (Str.ljust "api" 40 ++ " " ++ Str.ljust "BUILDING" 15);
            Text (Str.ljust "web" 40 ++ " " ++ Str.ljust "UNKNOWN" 15);
            jobs_total 2])%list).
Proof.
  apply (list_jobs_table
           (constant_server sample_jobs) sample_time "/dev/"
           [("jobs", JArr [JObj [("name", JStr "api");
                                 ("color", JStr "blue_anime")];
                           JObj [("name", JStr "web")]])]
           [JObj [("name", JStr "api"); ("color", JStr "blue_anime")];
            JObj [("name", JStr "web")]]
           [("api", "blue_anime"); ("web", "unknown")]);
    try reflexivity; try discriminate.
  repeat constructor; eexists; repeat split.
Defined.



(** ** More on the extractors *)

Lemma for_return_all {A R : Type} (body : A -> py (option R)) (Q : R -> Prop) xs :
  (forall x, In x xs ->
             exists o, body x = Ok o /\ forall r, o = Some r -> Q r) ->
  exists o, for_return body xs = Ok o /\ forall r, o = Some r -> Q r.
Proof.
  induction xs as [|x rest IH]; intro H; simpl.
  - exists None. split; [reflexivity|discriminate].
  - destruct (H x (or_introl eq_refl)) as [o [Hx Hq]]. rewrite Hx. simpl.
    destruct o as [v|].
    + exists (Some v). auto.
    + apply IH. intros y Hy. apply H. now right.
Qed.

Lemma wf_cause_trigger cause :
  wf_cause cause = true ->
  exists o, trigger_of_cause cause = Ok o /\ forall r, o = Some r -> is_string r.
Proof.
  destruct cause as [| | | |?|m]; simpl; try discriminate.
  unfold trigger_of_cause. simpl.
  destruct (lookup "userId" m) as [[| | |u| |]|]; simpl; try discriminate.
  - intros _. eexists. split; [reflexivity|].
    intros r H. inversion H. now exists u.
  - destruct (lookup "shortDescription" m) as [[| | |d| |]|]; simpl;
      try discriminate; intros _.
    + destruct (Str.contains "Started by user" d); simpl;
        [|destruct (Str.contains "Started by" d); simpl];
        (eexists; split; [reflexivity|]);
        intros r H; inversion H; eexists; reflexivity.
    + exists None. split; [reflexivity|discriminate].
Qed.

Lemma wf_cause_action_trigger action :
  wf_cause_action action = true ->
  exists o, trigger_of_action action = Ok o
            /\ forall r, o = Some r -> is_string r.
Proof.
  destruct action as [| | | |?|m]; simpl; try discriminate.
  unfold trigger_of_action, field. simpl.
  destruct (eq_str _ CAUSE_ACTION).
  - destruct (lookup "causes" m) as [[| | | |causes|]|]; simpl;
      try discriminate.
    + intro H. apply for_return_all. intros c Hc.
      apply wf_cause_trigger. rewrite forallb_forall in H. apply H, Hc.
    + intros _. exists None. split; [reflexivity|discriminate].
  - intros _. exists None. split; [reflexivity|discriminate].
Qed.

Lemma well_formed_actions_scan actions :
  forallb wf_cause_action actions = true ->
  exists o, for_return trigger_of_action actions = Ok o
            /\ forall r, o = Some r -> is_string r.
Proof.
  intro H. apply for_return_all. intros a Ha.
  apply wf_cause_action_trigger.
  rewrite forallb_forall in H. apply H, Ha.
Qed.

(** X9: on a list of action objects whose causes are objects with string
    userId or shortDescription values, trigger extraction raises nothing
    and returns a string. *)
Theorem trigger_of_well_formed_actions actions :
  forallb wf_cause_action actions = true ->
  exists s, _extract_trigger_info (JArr actions) = Ok (JStr s).
Proof.
  intro H. unfold _extract_trigger_info. simpl.
  destruct (well_formed_actions_scan actions H) as [o [Ho Hs]].
  rewrite Ho. simpl. destruct o as [r|].
  - destruct (Hs r eq_refl) as [s ->]. now exists s.
  - now exists "Unknown".
Qed.

Lemma trigger_of_well_formed_actions_witness :
  exists s,
    _extract_trigger_info
      (JArr [parameters_action [];
             cause_action [JObj [("upstreamBuild", JInt 4)];
                           JObj [("shortDescription",
                                  JStr "Started by an SCM change")]]])
    = Ok (JStr s).
Proof.
  apply trigger_of_well_formed_actions. reflexivity.
Defined.

Lemma other_class_no_trigger class action :
  is_object action = true -> has_class class action = false ->
  class = CAUSE_ACTION -> trigger_of_action action = Ok None.
Proof.
  destruct action as [| | | |?|m]; simpl; try discriminate.
  intros _ H ->. unfold trigger_of_action, field in *. simpl.
  rewrite H. reflexivity.
Qed.

Lemma other_class_no_parameter d action :
  is_object action = true -> has_class PARAMETERS_ACTION action = false ->
  add_parameters_of d action = Ok d.
Proof.
  destruct action as [| | | |?|m]; simpl; try discriminate.
  intros _ H. unfold add_parameters_of, field in *. simpl.
  rewrite H. reflexivity.
Qed.

(** X10: on a list of action objects, an extractor does not depend on
    the actions of another class: trigger extraction gives what the
    CauseActions alone give, parameter extraction what the
    ParametersActions alone give, whatever the other actions hold. *)
Theorem extractors_ignore_other_actions actions :
  forallb is_object actions = true ->
  _extract_trigger_info (JArr actions)
  = _extract_trigger_info (JArr (filter (has_class CAUSE_ACTION) actions))
  /\ _extract_parameters (JArr actions)
     = _extract_parameters
         (JArr (filter (has_class PARAMETERS_ACTION) actions)).
Proof.
  intro Hobj. unfold _extract_trigger_info, _extract_parameters. simpl.
  split.
  - f_equal.
    induction actions as [|a rest IH]; [reflexivity|].
    simpl in Hobj. apply andb_prop in Hobj. destruct Hobj as [Ha Hrest].
    cbn [filter]. destruct (has_class CAUSE_ACTION a) eqn:Hc.
    + cbn [for_return]. destruct (trigger_of_action a) as [[r|]|e];
        simpl; auto.
    + cbn [for_return].
      rewrite (other_class_no_trigger CAUSE_ACTION a Ha Hc eq_refl).
      simpl. auto.
  - generalize (@nil (json * string)) as d.
    induction actions as [|a rest IH]; intro d; [reflexivity|].
    simpl in Hobj. apply andb_prop in Hobj. destruct Hobj as [Ha Hrest].
    cbn [filter]. destruct (has_class PARAMETERS_ACTION a) eqn:Hc.
    + cbn [for_each]. destruct (add_parameters_of d a) as [d'|e];
        simpl; auto.
    + cbn [for_each]. rewrite (other_class_no_parameter d a Ha Hc).
      simpl. auto.
Qed.

Lemma extractors_ignore_other_actions_witness :
  _extract_trigger_info
    (JArr [JObj [("_class", JStr "hudson.plugins.git.util.BuildData")];
           parameters_action [parameter (JStr "ENV") (JStr "prod")];
           cause_action [JObj [("userId", JStr "alice")]]])
  = _extract_trigger_info (JArr [cause_action [JObj [("userId", JStr "alice")]]])
  /\ _extract_parameters
       (JArr [JObj [("_class", JStr "hudson.plugins.git.util.BuildData")];
              parameters_action [parameter (JStr "ENV") (JStr "prod")];
              cause_action [JObj [("userId", JStr "alice")]]])
     = _extract_parameters
         (JArr [parameters_action [parameter (JStr "ENV") (JStr "prod")]]).
Proof.
  apply (extractors_ignore_other_actions
           [JObj [("_class", JStr "hudson.plugins.git.util.BuildData")];
            parameters_action [parameter (JStr "ENV") (JStr "prod")];
            cause_action [JObj [("userId", JStr "alice")]]]).
  reflexivity.
Defined.

(** ** Strings *)

Lemma prefix_empty s : prefix "" s = true.
Proof. destruct s; reflexivity. Qed.

Lemma prefix_app old rest : prefix old (old ++ rest) = true.
Proof.
  induction old as [|c old IH]; simpl; [apply prefix_empty|].
  destruct (ascii_dec c c); [exact IH|congruence].
Qed.

Lemma replace_absent old new s :
  Str.contains old s = false -> Str.replace old new s = s.
Proof.
  unfold Str.replace. induction s as [|c s IH]; [reflexivity|].
  cbn [Str.contains Str.replace_from]. intro H.
  apply orb_false_elim in H. destruct H as [Hp Hs].
  rewrite Hp. f_equal. apply IH, Hs.
Qed.

Lemma replace_skips old new passed rest :
  Str.replace_from old new (String.length passed) (passed ++ rest)
  = Str.replace_from old new 0 rest.
Proof.
  induction passed as [|c passed IH]; simpl; [|exact IH].
  destruct rest; reflexivity.
Qed.

Lemma replace_leading c old rest :
  Str.replace (String c old) "" (String c old ++ rest)
  = Str.replace (String c old) "" rest.
Proof.
  unfold Str.replace.
  change (String c old ++ rest) with (String c (old ++ rest)).
  cbn [Str.replace_from].
  change (String c (old ++ rest)) with (String c old ++ rest).
  rewrite prefix_app. cbn [String.length Nat.sub].
  rewrite Nat.sub_0_r. apply replace_skips.
Qed.

Lemma contains_leading old rest : Str.contains old (old ++ rest) = true.
Proof.
  destruct (old ++ rest) as [|c s] eqn:E.
  - destruct old; [reflexivity|discriminate E].
  - cbn [Str.contains]. rewrite <- E, prefix_app. reflexivity.
Qed.

Lemma trigger_of_one_description d :
  _extract_trigger_info
    (JArr [cause_action [JObj [("shortDescription", JStr d)]]])
  = Ok (JStr (if Str.contains "Started by user" d
              then Str.replace "Started by user " "" d
              else if Str.contains "Started by" d
                   then Str.replace "Started by " "" d
                   else "SCM/Timer")).
Proof.
  unfold _extract_trigger_info, cause_action. simpl.
  unfold trigger_of_action. simpl.
  unfold trigger_of_cause. simpl.
  destruct (Str.contains "Started by user" d); simpl; [reflexivity|].
  destruct (Str.contains "Started by" d); reflexivity.
Qed.

(** X11: what follows "Started by user " or "Started by " in the
    description is the trigger, when that rest does not hold the removed
    text again: a cause without userId and with the description
    "Started by user " followed by a name gives the name, and one with
    "Started by " followed by anything else gives that. *)
Theorem trigger_is_rest_of_description rest :
  (Str.contains "Started by user " rest = false ->
   _extract_trigger_info
     (JArr [cause_action
              [JObj [("shortDescription", JStr ("Started by user " ++ rest))]]])
   = Ok (JStr rest))
  /\ (Str.contains "Started by user" ("Started by " ++ rest) = false ->
      Str.contains "Started by " rest = false ->
      _extract_trigger_info
        (JArr [cause_action
                 [JObj [("shortDescription", JStr ("Started by " ++ rest))]]])
      = Ok (JStr rest)).
Proof.
  split.
  - intro H. rewrite trigger_of_one_description.
    change ("Started by user " ++ rest)
      with ("Started by user" ++ String " " rest) at 1.
    rewrite contains_leading.
    rewrite replace_leading, replace_absent by exact H. reflexivity.
  - intros Hu H. rewrite trigger_of_one_description, Hu.
    change ("Started by " ++ rest)
      with ("Started by" ++ String " " rest) at 1.
    rewrite contains_leading.
    rewrite replace_leading, replace_absent by exact H. reflexivity.
Qed.

Lemma trigger_is_rest_of_description_witness :
  _extract_trigger_info
    (JArr [cause_action
             [JObj [("shortDescription", JStr ("Started by user " ++ "Alice"))]]])
  = Ok (JStr "Alice")
  /\ _extract_trigger_info
       (JArr [cause_action
                [JObj [("shortDescription",
                        JStr ("Started by " ++ "an SCM change"))]]])
     = Ok (JStr "an SCM change").
Proof.
  split.
  - apply (proj1 (trigger_is_rest_of_description "Alice")). reflexivity.
  - apply (proj2 (trigger_is_rest_of_description "an SCM change"));
      reflexivity.
Defined.

Lemma spaces_length n : String.length (Str.spaces n) = n.
Proof. induction n; simpl; congruence. Qed.

Lemma ljust_length s width :
  String.length (Str.ljust s width) = Nat.max (String.length s) width.
Proof. unfold Str.ljust. rewrite length_app, spaces_length. lia. Qed.

Lemma format_parameters_length d :
  (1 <= String.length (_format_parameters d) <= 25)%nat.
Proof.
  destruct d as [|kv rest]; [simpl; lia|].
  unfold _format_parameters.
  set (result := Str.join ", " _).
  destruct (Nat.ltb_spec 25 (String.length result)).
  - rewrite length_app, take_length by lia. simpl. lia.
  - split; [|assumption].
    subst result. destruct kv as [k v]. cbn [map].
    destruct (map _ rest); cbn [Str.join]; rewrite !length_app; simpl; lia.
Qed.

(** X12: the rendered parameters never take more than 25 characters,
    whatever the dict holds, so they always fit the 30 columns of the
    row, and they are never empty. *)
Theorem format_parameters_fits d :
  (1 <= String.length (_format_parameters d) <= 25)%nat
  /\ String.length (Str.ljust (_format_parameters d) 30) = 30%nat.
Proof.
  assert (H := format_parameters_length d).
  split; [exact H|]. rewrite ljust_length. lia.
Qed.

Lemma format_ljust_length v width col :
  py_format_ljust v width = Ok col -> (width <= String.length col)%nat.
Proof.
  destruct v; cbn [py_format_ljust]; try discriminate;
    intro H; injection H as <-; rewrite ljust_length; lia.
Qed.

Lemma format_ljust_column v width col :
  py_format_ljust v width = Ok col ->
  exists text, column_text v = Some text /\ col = column text width.
Proof.
  destruct v; cbn [py_format_ljust column_text]; try discriminate;
    intro H; injection H as <-; eexists; split; reflexivity.
Qed.

Lemma column_length text width :
  String.length (column text width)
  = Nat.max (String.length text) width.
Proof. unfold column. rewrite length_app, spaces_length. lia. Qed.

(** X13: a row of the history that is printed holds the values of the
    build, each in full: the number, the result of the answer ("UNKNOWN"
    when the key is absent), the trigger and the time, and the rendered
    parameters extracted from the actions, each followed by the spaces
    that are missing up to 8, 12, 20, 20 and 30 characters, with one
    space between two columns.  No value is cut: one that is wider than
    its column widens the row, which is at least 94 characters wide. *)
Theorem build_row_width local_time n build_data row :
  build_row local_time n build_data = Ok row ->
  exists m number result t trigger time d,
    build_data = JObj m
    /\ column_text n = Some number
    /\ column_text (field m "result" (JStr "UNKNOWN")) = Some result
    /\ _extract_trigger_info (field m "actions" (JArr [])) = Ok t
    /\ column_text t = Some trigger
    /\ format_timestamp local_time (field m "timestamp" (JInt 0)) = Ok time
    /\ _extract_parameters (field m "actions" (JArr [])) = Ok d
    /\ row = column number 8 ++ " " ++ column result 12 ++ " "
             ++ column trigger 20 ++ " " ++ column time 20 ++ " "
             ++ column (_format_parameters d) 30
    /\ String.length row
       = (Nat.max (String.length number) 8 + 1
          + Nat.max (String.length result) 12 + 1
          + Nat.max (String.length trigger) 20 + 1
          + Nat.max (String.length time) 20 + 1 + 30)%nat
    /\ (row_width <= String.length row)%nat.
Proof.
  unfold build_row.
  destruct build_data as [| | | | |m]; try discriminate.
  change (py_get (JObj m) "result" (JStr "UNKNOWN"))
    with (Ok (field m "result" (JStr "UNKNOWN"))).
  change (py_get (JObj m) "timestamp" (JInt 0))
    with (Ok (field m "timestamp" (JInt 0))).
  change (py_get (JObj m) "duration" (JInt 0))
    with (Ok (field m "duration" (JInt 0))).
  change (py_get (JObj m) "actions" (JArr []))
    with (Ok (field m "actions" (JArr []))).
  cbn [py_bind].
  destruct (_extract_trigger_info _) as [t|] eqn:Ht; [|discriminate].
  cbn [py_bind].
  destruct (_extract_parameters _) as [d|] eqn:Hd; [|discriminate].
  cbn [py_bind].
  destruct (format_timestamp local_time _) as [time|] eqn:Htime;
    [|discriminate].
  cbn [py_bind].
  destruct (py_format_ljust n 8) as [c1|] eqn:H1; [|discriminate].
  cbn [py_bind].
  destruct (py_format_ljust _ 12) as [c2|] eqn:H2; [|discriminate].
  cbn [py_bind].
  destruct (py_format_ljust t 20) as [c3|] eqn:H3; [|discriminate].
  cbn [py_bind]. intro H. injection H as <-.
  destruct (format_ljust_column _ _ _ H1) as [number [Hn ->]].
  destruct (format_ljust_column _ _ _ H2) as [result [Hr ->]].
  destruct (format_ljust_column _ _ _ H3) as [trigger [Htr ->]].
  exists m, number, result, t, trigger, time, d.
  change (Str.ljust time 20) with (column time 20).
  change (Str.ljust (_format_parameters d) 30)
    with (column (_format_parameters d) 30).
  assert (Hlen : String.length
                   (column number 8 ++ " " ++ column result 12 ++ " "
                    ++ column trigger 20 ++ " " ++ column time 20 ++ " "
                    ++ column (_format_parameters d) 30)
                 = (Nat.max (String.length number) 8 + 1
                    + Nat.max (String.length result) 12 + 1
                    + Nat.max (String.length trigger) 20 + 1
                    + Nat.max (String.length time) 20 + 1 + 30)%nat).
  { assert (Hp := format_parameters_length d).
    unfold column.
    repeat (rewrite length_app || cbn [String.length]).
    rewrite !spaces_length. lia. }
  do 8 (split; [assumption || reflexivity|]).
  split; [exact Hlen|]. unfold row_width.
  etransitivity; [|apply Nat.eq_le_incl; symmetry; exact Hlen]. lia.
Qed.

Lemma build_row_width_witness :
  (row_width
   <= String.length
        (column "123456789012" 8 ++ " " ++ column "SUCCESS" 12 ++ " "
         ++ column "alice" 20 ++ " " ++ column "2023-11-14 22:13:20" 20
         ++ " " ++ column "ENV=prod" 30))%nat.
Proof.
  destruct (build_row_width sample_time (JInt 123456789012) finished_build
              _ eq_refl)
    as [m [number [result [t [trigger [time [d H]]]]]]].
  apply H.
Defined.

(** ** The parameters dict *)

Lemma key_eqb_sym a b : key_eqb a b = key_eqb b a.
Proof.
  destruct a as [|p|x|s| |], b as [|q|y|t| |]; cbn -[Z.eqb];
    auto using String.eqb_sym, Z.eqb_sym.
Qed.

Lemma dict_set_exists d key value other :
  existsb (fun kv => key_eqb (fst kv) other) (dict_set d key value) = true ->
  existsb (fun kv => key_eqb (fst kv) other) d = true
  \/ key_eqb key other = true.
Proof.
  induction d as [|[k x] rest IH]; cbn [dict_set existsb fst].
  - rewrite orb_false_r. auto.
  - destruct (key_eqb k key); cbn [existsb fst]; [auto|].
    destruct (key_eqb k other); cbn [orb]; auto.
Qed.

Lemma dict_set_distinct d key value :
  distinct_keys d = true -> distinct_keys (dict_set d key value) = true.
Proof.
  induction d as [|[k x] rest IH]; cbn [dict_set distinct_keys];
    [reflexivity|].
  intro H. apply andb_prop in H. destruct H as [Hk Hrest].
  destruct (key_eqb k key) eqn:E; cbn [distinct_keys].
  - now rewrite Hk, Hrest.
  - rewrite (IH Hrest), andb_true_r.
    destruct (existsb _ (dict_set rest key value)) eqn:Hex; [|reflexivity].
    apply dict_set_exists in Hex. destruct Hex as [Hex|Hex].
    + now rewrite Hex in Hk.
    + rewrite key_eqb_sym, E in Hex. discriminate Hex.
Qed.

Lemma for_each_keeps {A S : Type} (body : S -> A -> py S) (P : S -> Prop) xs :
  (forall s x s', P s -> body s x = Ok s' -> P s') ->
  forall s s', P s -> for_each body xs s = Ok s' -> P s'.
Proof.
  intro H. induction xs as [|x rest IH]; intros s s' Hs; simpl.
  - intro E. now inversion E; subst.
  - destruct (body s x) as [s1|e] eqn:Hx; simpl; [|discriminate].
    apply IH. exact (H _ _ _ Hs Hx).
Qed.

Lemma add_parameter_sound d param d' :
  sound_parameters d -> add_parameter d param = Ok d' -> sound_parameters d'.
Proof.
  intros [Hd Hin]. unfold add_parameter.
  destruct (py_get param "name" _) as [name|]; [|discriminate].
  destruct (py_get param "value" _) as [value|]; [|discriminate].
  cbn [py_bind].
  destruct (py_truth name) eqn:Hn; cbn [andb];
    [|intro E; inversion E; subst; now split].
  destruct (py_truth value) eqn:Hv;
    [|intro E; inversion E; subst; now split].
  unfold py_setitem. destruct (hashable name) eqn:Hh; [|discriminate].
  intro E. inversion E; subst. split; [now apply dict_set_distinct|].
  intros k v Hkv.
  destruct (dict_set_in _ _ _ _ _ Hkv) as [Hold|[-> [->|[x Hx]]]].
  - apply Hin, Hold.
  - repeat split; auto. now apply py_str_not_empty.
  - destruct (Hin _ _ Hx) as [H1 [H2 _]]. repeat split; auto.
    now apply py_str_not_empty.
Qed.

(** X14: whenever parameter extraction returns, whatever the actions
    hold, no two keys of the map are equal, no key is empty and no value
    is empty. *)
Theorem extracted_parameters_are_sound actions d :
  _extract_parameters actions = Ok d ->
  distinct_keys d = true
  /\ forall k v, In (k, v) d ->
                 hashable k = true /\ py_truth k = true /\ v <> "".
Proof.
  unfold _extract_parameters.
  destruct (py_iter actions) as [items|]; [|discriminate]. cbn [py_bind].
  apply (for_each_keeps add_parameters_of sound_parameters).
  - intros s a s' Hs. unfold add_parameters_of.
    destruct (py_get a "_class" JNull) as [cls|]; [|discriminate].
    cbn [py_bind]. destruct (eq_str cls PARAMETERS_ACTION);
      [|intro E; inversion E; now subst].
    destruct (py_get a "parameters" _) as [params|]; [|discriminate].
    cbn [py_bind]. destruct (py_iter params) as [ps|]; [|discriminate].
    cbn [py_bind].
    apply (for_each_keeps add_parameter sound_parameters); [|exact Hs].
    intros s0 x s1. apply add_parameter_sound.
  - split; [reflexivity|]. intros k v [].
Qed.

Lemma extracted_parameters_are_sound_witness :
  distinct_keys [(JStr "ENV", "b"); (JInt 1, "x")] = true
  /\ forall k v, In (k, v) [(JStr "ENV", "b"); (JInt 1, "x")] ->
                 hashable k = true /\ py_truth k = true /\ v <> "".
Proof.
  apply (extracted_parameters_are_sound
           (JArr [parameters_action [parameter (JStr "ENV") (JStr "a");
                                     parameter (JInt 1) (JStr "y");
                                     parameter (JStr "OFF") (JInt 0)];
                  parameters_action [parameter (JStr "ENV") (JStr "b");
                                     parameter (JBool true) (JStr "x")]])).
  reflexivity.
Defined.

(** ** Paths and addresses *)

Lemma lstrip_leading n s : Str.lstrip_slash (slashes n ++ s) = Str.lstrip_slash s.
Proof. induction n as [|n IH]; [reflexivity|exact IH]. Qed.

Lemma rstrip_slashes m : Str.rstrip_slash (slashes m) = "".
Proof. induction m as [|m IH]; [reflexivity|]. simpl. now rewrite IH. Qed.

Lemma rstrip_trailing s m :
  Str.rstrip_slash (s ++ slashes m) = Str.rstrip_slash s.
Proof.
  induction s as [|c s IH]; [apply rstrip_slashes|].
  simpl. now rewrite IH.
Qed.

Lemma lstrip_slashes m : Str.lstrip_slash (slashes m) = "".
Proof. induction m as [|m IH]; [reflexivity|exact IH]. Qed.

Lemma strip_trailing s m :
  Str.strip_slash (s ++ slashes m) = Str.strip_slash s.
Proof.
  unfold Str.strip_slash. induction s as [|c s IH].
  - cbn [append]. now rewrite lstrip_slashes.
  - cbn [append Str.lstrip_slash]. destruct (Str.is_slash c); [exact IH|].
    change (String c (s ++ slashes m)) with (String c s ++ slashes m).
    apply rstrip_trailing.
Qed.

(** X15: slashes added before or after a path change nothing: the
    stripped path is the same, and so are the endpoints of both
    commands; stripping a stripped path leaves it as it is. *)
Theorem extra_slashes_change_nothing n m path :
  Str.strip_slash (slashes n ++ path ++ slashes m) = Str.strip_slash path
  /\ job_history_endpoint (slashes n ++ path ++ slashes m)
     = job_history_endpoint path
  /\ list_jobs_endpoint (slashes n ++ path ++ slashes m)
     = list_jobs_endpoint path
  /\ Str.strip_slash (Str.strip_slash path) = Str.strip_slash path.
Proof.
  assert (H : forall a b p,
             Str.strip_slash (slashes a ++ p ++ slashes b) = Str.strip_slash p).
  { intros a b p. rewrite <- (strip_trailing p b).
    unfold Str.strip_slash. now rewrite lstrip_leading. }
  split; [apply H|].
  unfold job_history_endpoint, list_jobs_endpoint. rewrite H.
  repeat split.
  destruct (lstrip_slash_spec path) as [[a Ha] _].
  destruct (rstrip_slash_spec (Str.lstrip_slash path)) as [[b Hb] _].
  fold (Str.strip_slash path) in Hb.
  rewrite <- (H a b (Str.strip_slash path)) at 1.
  now rewrite <- Hb, <- Ha.
Qed.

Lemma append_same_tail (s1 s2 t : string) : s1 ++ t = s2 ++ t -> s1 = s2.
Proof.
  revert s2. induction s1 as [|c s1 IH]; intros [|c' s2] H.
  - reflexivity.
  - apply (f_equal String.length) in H. simpl in H.
    rewrite length_app in H. lia.
  - apply (f_equal String.length) in H. simpl in H.
    rewrite length_app in H. lia.
  - simpl in H. inversion H. f_equal. now apply IH.
Qed.

Lemma append_same_head (s t1 t2 : string) : s ++ t1 = s ++ t2 -> t1 = t2.
Proof. induction s as [|c s IH]; simpl; intro H; [exact H|]. inversion H. auto. Qed.

Lemma str_of_Z_inj a b : str_of_Z a = str_of_Z b -> a = b.
Proof.
  unfold str_of_Z. intro H. apply DecimalZ.to_int_inj.
  assert (Hs : forall z, NilZero.string_of_int (Z.to_int z)
                         = NilEmpty.string_of_int (Z.to_int z)).
  { intros [|p|p]; [reflexivity| |]; simpl;
      destruct (Pos.to_uint p) eqn:E; try reflexivity;
      now apply DecimalPos.Unsigned.to_uint_nonnil in E. }
  rewrite !Hs in H.
  apply (f_equal NilEmpty.int_of_string) in H.
  rewrite !NilEmpty.isi in H. congruence.
Qed.

(** X16: the details of two different build numbers are never asked at
    the same address. *)
Theorem build_numbers_have_own_urls job_path a b :
  a <> b ->
  detail_url job_path (JInt a) <> detail_url job_path (JInt b).
Proof.
  intros Hab H. apply Hab.
  unfold detail_url, build_endpoint in H.
  repeat apply append_same_head in H.
  apply append_same_tail in H. cbn [py_str py_repr] in H.
  now apply str_of_Z_inj.
Qed.

Lemma build_numbers_have_own_urls_witness :
  detail_url "dev/app" (JInt 12) <> detail_url "dev/app" (JInt 112).
Proof.
  apply (build_numbers_have_own_urls "dev/app" 12 112). discriminate.
Defined.

(** ** Rows of the history *)

Section RowFacts.

Variable server : nat -> string -> response.
Variable local_time : Z -> py string.

Lemma build_row_needs_number build_data :
  exists e, build_row local_time JNull build_data = Raise e.
Proof.
  unfold build_row.
  destruct build_data as [| | | | |m]; try (eexists; reflexivity).
  cbn [py_bind py_get].
  destruct (_extract_trigger_info _) as [t|]; cbn [py_bind]; [|eauto].
  destruct (_extract_parameters _) as [d|]; cbn [py_bind]; [|eauto].
  destruct (format_timestamp local_time _) as [bt|];
    cbn [py_bind py_format_ljust]; eauto.
Qed.

(** X17: a build of the listing without a number is asked for at the
    address of build "None" and, whatever the answer holds, gets no row
    but the error line of build "None"; the loop goes on. *)
Theorem build_without_number_gets_no_row job_path m rest build_data w :
  lookup "number" m = None ->
  server (requests w)
         (base_url ++ "/job/" ++ expand_slashes job_path ++ "/None/api/json")
  = Body build_data ->
  exists e,
    show_builds server local_time job_path (JObj m :: rest) w
    = show_builds server local_time job_path rest
        (World (S (requests w)) (printed w ++ [BuildError "None" e])%list).
Proof.
  intros Hnone Hserver.
  assert (Hurl : detail_url job_path JNull
                 = base_url ++ "/job/" ++ expand_slashes job_path
                            ++ "/None/api/json").
  { unfold detail_url, build_endpoint. rewrite replace_slash_expands.
    reflexivity. }
  rewrite <- Hurl in Hserver.
  rewrite show_builds_cons, display_build_details_step.
  unfold number_of, field. rewrite Hnone, Hserver.
  unfold detail_line.
  destruct (build_row_needs_number build_data) as [e ->].
  exists e. reflexivity.
Qed.

(** X18: a build whose answer is an object with a string result (or
    none), a timestamp that the clock can show (or none), and actions
    that are well-formed gets its row: the number, the result or
    "UNKNOWN", the trigger, the time and the parameters collected from
    the actions, each in its column. *)
Theorem well_formed_build_gets_its_row n m result time actions :
  field m "result" (JStr "UNKNOWN") = JStr result ->
  format_timestamp local_time (field m "timestamp" (JInt 0)) = Ok time ->
  field m "actions" (JArr []) = JArr actions ->
  forallb wf_cause_action actions = true ->
  forallb wf_action actions = true ->
  exists trigger,
    _extract_trigger_info (JArr actions) = Ok (JStr trigger)
    /\ build_row local_time (JInt n) (JObj m)
       = Ok (Str.ljust (str_of_Z n) 8 ++ " " ++ Str.ljust result 12 ++ " "
             ++ Str.ljust trigger 20 ++ " " ++ Str.ljust time 20 ++ " "
             ++ Str.ljust (_format_parameters (collect (all_entries actions)))
                          30).
Proof.
  intros Hresult Htime Hactions Hcauses Hparams.
  assert (Ht : exists trigger,
             _extract_trigger_info (JArr actions) = Ok (JStr trigger)).
  { unfold _extract_trigger_info. simpl.
    destruct (well_formed_actions_scan actions Hcauses) as [o [Ho Hs]].
    rewrite Ho. simpl. destruct o as [r|]; [|now exists "Unknown"].
    destruct (Hs r eq_refl) as [s ->]. now exists s. }
  destruct Ht as [trigger Ht].
  exists trigger. split; [exact Ht|].
  unfold build_row.
  change (py_get (JObj m) "result" (JStr "UNKNOWN"))
    with (Ok (field m "result" (JStr "UNKNOWN"))).
  change (py_get (JObj m) "timestamp" (JInt 0))
    with (Ok (field m "timestamp" (JInt 0))).
  change (py_get (JObj m) "duration" (JInt 0))
    with (Ok (field m "duration" (JInt 0))).
  change (py_get (JObj m) "actions" (JArr []))
    with (Ok (field m "actions" (JArr []))).
  cbn [py_bind]. rewrite Hresult, Hactions, Ht. cbn [py_bind].
  rewrite (extract_parameters_collect actions Hparams). cbn [py_bind].
  rewrite Htime. reflexivity.
Qed.

End RowFacts.

Lemma build_without_number_gets_no_row_witness :
  exists e,
    show_builds (constant_server finished_build) sample_time "dev/app"
                [JObj [("url", JStr "x")]] (World 1 [])
    = show_builds (constant_server finished_build) sample_time "dev/app" []
        (World 2 [BuildError "None" e]).
Proof.
  apply (build_without_number_gets_no_row
           (constant_server finished_build) sample_time "dev/app"
           [("url", JStr "x")] [] finished_build (World 1 []));
    reflexivity.
Defined.

Lemma well_formed_build_gets_its_row_witness :
  exists trigger,
    _extract_trigger_info
      (JArr [cause_action [JObj [("userId", JStr "alice")]];
             parameters_action [parameter (JStr "ENV") (JStr "prod")]])
    = Ok (JStr trigger)
    /\ build_row sample_time (JInt 1) finished_build
       = Ok (Str.ljust (str_of_Z 1) 8 ++ " " ++ Str.ljust "SUCCESS" 12 ++ " "
             ++ Str.ljust trigger 20 ++ " "
             ++ Str.ljust "2023-11-14 22:13:20" 20 ++ " "
             ++ Str.ljust "ENV=prod" 30).
Proof.
  apply (well_formed_build_gets_its_row
           sample_time 1
           [("result", JStr "SUCCESS"); ("timestamp", JInt 1700000000000);
            ("actions",
             JArr [cause_action [JObj [("userId", JStr "alice")]];
                   parameters_action [parameter (JStr "ENV") (JStr "prod")]])]
           "SUCCESS" "2023-11-14 22:13:20"
           [cause_action [JObj [("userId", JStr "alice")]];
            parameters_action [parameter (JStr "ENV") (JStr "prod")]]);
    reflexivity.
Defined.
